(** * bandcamp_discover.py: the discover-carousel scraper

    A shallow embedding of [src/selenium/bandcamp_discover.py].

    The script drives a browser through Selenium and appends rows to
    [tracks.csv].  Both are outside the repository, so the embedding keeps
    them apart from the script's own logic:

    - the browser is an interface ([WebDriver]): every call the script makes
      is an operation that answers with a value or an exception and may
      change the browser; theorems about the script hold for every
      implementation of the interface;
    - the CSV file is the list of rows handed to [csv.writer], or nothing
      when the file does not exist; how [csv] spells a row as a line of text
      is the library's business;
    - [print] and the calls that reach outside the process are recorded as
      events, in the order the script makes them.

    Python integers are [Z]; text is [string], read as the code points below
    256. *)

From Stdlib Require Import ZArith List String Ascii Bool Lia Sorted.
Import ListNotations.
Local Open Scope Z_scope.
Local Open Scope string_scope.
Local Open Scope list_scope.

Set Implicit Arguments.

(** ** Python built-ins used by the script *)

Module Py.

(** Exceptions that are instances of [Exception]: those of the built-ins
    the script uses and those of the driver. *)
Inductive exn : Type :=
| IndexError
| ValueError
| NoSuchElementException
| StaleElementReferenceException
| TimeoutException
| WebDriverException (msg : string).

(** Whitespace as [str.strip] and [int] see it, for code points below 256. *)
Definition is_space (c : ascii) : bool :=
  let n := nat_of_ascii c in
  (((9 <=? n) && (n <=? 13)) || ((28 <=? n) && (n <=? 32))
   || (n =? 133) || (n =? 160))%nat.

Fixpoint lstrip (s : string) : string :=
  match s with
  | EmptyString => EmptyString
  | String c s' => if is_space c then lstrip s' else s
  end.

Fixpoint rstrip (s : string) : string :=
  match s with
  | EmptyString => EmptyString
  | String c s' =>
      match rstrip s' with
      | EmptyString => if is_space c then EmptyString else String c EmptyString
      | r => String c r
      end
  end.

(** [str.strip()] *)
Definition strip (s : string) : string := rstrip (lstrip s).

Definition digit_of (c : ascii) : option Z :=
  let n := nat_of_ascii c in
  if ((48 <=? n) && (n <=? 57))%nat then Some (Z.of_nat n - 48) else None.

(** Decimal digits, single underscores allowed between two digits. *)
Fixpoint digits (s : string) (acc : Z) (after_digit : bool) : option Z :=
  match s with
  | EmptyString => if after_digit then Some acc else None
  | String c s' =>
      match digit_of c with
      | Some d => digits s' (10 * acc + d) true
      | None =>
          if (Ascii.eqb c "_" && after_digit)%bool then digits s' acc false
          else None
      end
  end.

(** Whitespace as [int] skips it around the number, for code points below
    256: the ASCII white space characters and the two Unicode spaces above
    127.  The separators 28 to 31, which [str.strip] removes, are not among
    them. *)
Definition is_int_space (c : ascii) : bool :=
  let n := nat_of_ascii c in
  (((9 <=? n) && (n <=? 13)) || (n =? 32) || (n =? 133) || (n =? 160))%nat.

Fixpoint lstrip_by (sp : ascii -> bool) (s : string) : string :=
  match s with
  | EmptyString => EmptyString
  | String c s' => if sp c then lstrip_by sp s' else s
  end.

Fixpoint rstrip_by (sp : ascii -> bool) (s : string) : string :=
  match s with
  | EmptyString => EmptyString
  | String c s' =>
      match rstrip_by sp s' with
      | EmptyString => if sp c then EmptyString else String c EmptyString
      | r => String c r
      end
  end.

(** How many decimal digits [s] has. *)
Fixpoint count_digits (s : string) : Z :=
  match s with
  | EmptyString => 0
  | String c s' =>
      (match digit_of c with Some _ => 1 | None => 0 end) + count_digits s'
  end.

(** [sys.int_max_str_digits], at its default. *)
Definition int_max_str_digits : Z := 4300.

(** The number after the sign: more digits than [int_max_str_digits] are
    refused. *)
Definition int_body (s : string) : option Z :=
  if (int_max_str_digits <? count_digits s)%Z then None
  else digits s 0 false.

(** [int(s)] for a [str]: [None] stands for [ValueError]. *)
Definition int (s : string) : option Z :=
  match rstrip_by is_int_space (lstrip_by is_int_space s) with
  | String "-" s' => option_map Z.opp (int_body s')
  | String "+" s' => int_body s'
  | s' => int_body s'
  end.

(** [range(n)] *)
Definition range (n : Z) : list Z := map Z.of_nat (seq 0 (Z.to_nat n)).

(** [l[-2]]: [None] stands for [IndexError]. *)
Definition index_neg2 {A : Type} (l : list A) : option A :=
  if (2 <=? List.length l)%nat then nth_error l (List.length l - 2) else None.

End Py.

Export Py (exn(..)).

(** ** Constants of the module *)

Definition EXPECTED_TRACKS_PER_PAGE : Z := 8.

(** [DiscoverLocators] *)
Module DiscoverLocators.
Definition CAROUSEL_PAGE := "item-page".
Definition DISCOVER_BLOCK := "discover-results".
Definition DISCOVER_ITEM := "discover-item".
Definition DISCOVER_ITEM_TITLE := "item-title".
Definition DISCOVER_ITEM_ARTIST := "item-artist".
Definition DISCOVER_ITEM_GENRE := "item-genre".
Definition NEXT_BTN := "//a[contains(@class, 'item-page') and text()='next']".
End DiscoverLocators.

(** ** Records and rows *)

(** [Track = namedtuple('Track', ['id', 'page', 'title', 'artist', 'genre'])] *)
Record Track : Type := mkTrack {
  id : Z;
  page : Z;
  title : string;
  artist : string;
  genre : string
}.

(** A value handed to [csv.writer] as one field of a row. *)
Inductive Cell : Type :=
| CInt (n : Z)
| CStr (s : string).

Definition Row : Type := list Cell.

(** [Track._fields] *)
Definition Track_fields : Row :=
  [CStr "id"; CStr "page"; CStr "title"; CStr "artist"; CStr "genre"].

(** A [Track] is a tuple: [writerows] writes its five components in order. *)
Definition track_row (t : Track) : Row :=
  [CInt (id t); CInt (page t); CStr (title t); CStr (artist t); CStr (genre t)].

(** ** The browser interface *)

Inductive By : Type := CLASS_NAME | XPATH.

Inductive Res (A : Type) : Type :=
| Ok (a : A)
| Raise (e : exn).
Arguments Raise {A} e.

(** What the script asks of Selenium.  Every operation answers and leaves
    the browser in a possibly different state. *)
Class WebDriver (B Elem : Type) : Type := {
  (** [browser.find_elements(by, value)] *)
  find_elements : By -> string -> B -> Res (list Elem) * B;
  (** [browser.find_element(by, value)] *)
  find_element : By -> string -> B -> Res Elem * B;
  (** [wait.until(EC.visibility_of_element_located((by, value)))] *)
  until_visible : By -> string -> B -> Res Elem * B;
  (** [elem.find_elements(by, value)] *)
  elem_find_elements : Elem -> By -> string -> B -> Res (list Elem) * B;
  (** [elem.find_element(by, value)] *)
  elem_find_element : Elem -> By -> string -> B -> Res Elem * B;
  (** [elem.text] *)
  elem_text : Elem -> B -> Res string * B;
  (** [elem.is_displayed()] *)
  elem_is_displayed : Elem -> B -> Res bool * B;
  (** [elem.click()] *)
  elem_click : Elem -> B -> Res unit * B;
  (** [browser.quit()] *)
  driver_quit : B -> Res unit * B
}.

(** ** Events *)

Inductive LogLine : Type :=
| LogTotalPagesError (e : exn)
    (** [print('Error retrieving total pages:', e)] *)
| LogTrackCollected (title : string)
    (** [print(f"Track '{title}' collected.")] *)
| LogTrackError (page_num : Z) (e : exn)
    (** [print(f"Error processing track on page {page_num}: {e}")] *)
| LogExpectedTracks (expected found page_num : Z)
    (** [print(f"Expected {..} tracks, but found {..} on page {..}")] *)
| LogBrowserClosed.
    (** [print("Browser closed.")] *)

Inductive Event (Elem : Type) : Type :=
| EvFindElements (by_ : By) (value : string)
| EvFindElement (by_ : By) (value : string)
| EvUntilVisible (by_ : By) (value : string)
| EvElemFindElements (e : Elem) (by_ : By) (value : string)
| EvElemFindElement (e : Elem) (by_ : By) (value : string)
| EvText (e : Elem)
| EvIsDisplayed (e : Elem)
| EvClick (e : Elem)
| EvQuit
| EvPrint (l : LogLine)
| EvOpenAppend                     (** [open(CSV_FILE_PATH, 'a', ...)] *)
| EvWriterow (row : Row)           (** [writer.writerow(row)] *)
| EvWriterows (data : list Track). (** [writer.writerows(data)] *)
Arguments EvFindElements {Elem}.
Arguments EvFindElement {Elem}.
Arguments EvUntilVisible {Elem}.
Arguments EvQuit {Elem}.
Arguments EvPrint {Elem}.
Arguments EvOpenAppend {Elem}.
Arguments EvWriterow {Elem}.
Arguments EvWriterows {Elem}.

(** ** The script's monad: state, exceptions, events *)

Section Script.

Context {B Elem : Type} {WD : WebDriver B Elem}.

(** What the script can observe and change.  [browser] is [self.browser];
    [file_exists] is [self.file_exists]; [csv_file] is the content of
    [CSV_FILE_PATH] ([None]: no such file); [discovery_item_id] is the next
    value of the [count] object that [get_tracks] creates and shares with
    [_collect_track_info]. *)
Record State : Type := mkState {
  browser : B;
  file_exists : bool;
  csv_file : option (list Row);
  discovery_item_id : Z
}.

Record Outcome (A : Type) : Type := mkOutcome {
  result : Res A;
  final : State;
  events : list (Event Elem)
}.

(** A statement of the script: from a state to a result, the state it leaves
    behind (also when it raises) and the events it caused. *)
Definition M (A : Type) : Type := State -> Outcome A.

Definition ret {A : Type} (a : A) : M A :=
  fun s => mkOutcome (Ok a) s [].

Definition raise {A : Type} (e : exn) : M A :=
  fun s => mkOutcome (Raise e) s [].

Definition bind {A C : Type} (m : M A) (f : A -> M C) : M C :=
  fun s =>
    match m s with
    | mkOutcome (Ok a) s1 evs1 =>
        match f a s1 with
        | mkOutcome r s2 evs2 => mkOutcome r s2 (evs1 ++ evs2)
        end
    | mkOutcome (Raise e) s1 evs1 => mkOutcome (Raise e) s1 evs1
    end.

(** [try: m except Exception as e: h e] *)
Definition try_except {A : Type} (m : M A) (h : exn -> M A) : M A :=
  fun s =>
    match m s with
    | mkOutcome (Ok a) s1 evs1 => mkOutcome (Ok a) s1 evs1
    | mkOutcome (Raise e) s1 evs1 =>
        match h e s1 with
        | mkOutcome r s2 evs2 => mkOutcome r s2 (evs1 ++ evs2)
        end
    end.

Notation "x <- m ;; k" := (bind m (fun x => k))
  (at level 61, m at next level, right associativity).
Notation "m ;; k" := (bind m (fun _ => k))
  (at level 61, right associativity).

(** [for x in l: body x] *)
Fixpoint for_each {A : Type} (l : list A) (body : A -> M unit) : M unit :=
  match l with
  | [] => ret tt
  | x :: l' => body x ;; for_each l' body
  end.

(** A call to the driver: the event, then the browser's answer. *)
Definition call {A : Type} (ev : Event Elem) (op : B -> Res A * B) : M A :=
  fun s =>
    let (r, b) := op (browser s) in
    mkOutcome r (mkState b (file_exists s) (csv_file s) (discovery_item_id s))
              [ev].

Definition emit (ev : Event Elem) : M unit :=
  fun s => mkOutcome (Ok tt) s [ev].

Definition print (l : LogLine) : M unit := emit (EvPrint l).

Definition of_option {A : Type} (o : option A) (e : exn) : M A :=
  match o with
  | Some a => ret a
  | None => raise e
  end.

(** [next(discovery_item_id)] *)
Definition next_id : M Z :=
  fun s =>
    mkOutcome (Ok (discovery_item_id s))
              (mkState (browser s) (file_exists s) (csv_file s)
                       (discovery_item_id s + 1))
              [].

(** [discovery_item_id = count(start)] *)
Definition new_count (start : Z) : M unit :=
  fun s =>
    mkOutcome (Ok tt)
              (mkState (browser s) (file_exists s) (csv_file s) start) [].

(** [open(CSV_FILE_PATH, 'a', ...)]: creates the file when there is none. *)
Definition open_append : M unit :=
  fun s =>
    mkOutcome (Ok tt)
              (mkState (browser s) (file_exists s)
                       (Some (match csv_file s with
                              | Some rows => rows
                              | None => []
                              end))
                       (discovery_item_id s))
              [EvOpenAppend].

Definition append_rows (rows : list Row) (f : option (list Row))
  : option (list Row) :=
  match f with
  | Some old => Some (old ++ rows)
  | None => None
  end.

(** [writer.writerow(row)] on the open file *)
Definition writerow (row : Row) : M unit :=
  fun s =>
    mkOutcome (Ok tt)
              (mkState (browser s) (file_exists s)
                       (append_rows [row] (csv_file s))
                       (discovery_item_id s))
              [EvWriterow row].

(** [writer.writerows(data)] on the open file *)
Definition writerows (data : list Track) : M unit :=
  fun s =>
    mkOutcome (Ok tt)
              (mkState (browser s) (file_exists s)
                       (append_rows (map track_row data) (csv_file s))
                       (discovery_item_id s))
              [EvWriterows data].

Definition set_file_exists (v : bool) : M unit :=
  fun s =>
    mkOutcome (Ok tt)
              (mkState (browser s) v (csv_file s) (discovery_item_id s)) [].

Definition get_file_exists : M bool :=
  fun s => mkOutcome (Ok (file_exists s)) s [].

(** ** DiscoverGatherer *)

Import DiscoverLocators.

(** [__init__], once [Firefox(options=options)] and [browser.get(site_url)]
    have given the browser [b]: [self.file_exists = CSV_FILE_PATH.exists()].
    No [count] object exists yet; [get_tracks] creates it. *)
Definition __init__ (b : B) (file : option (list Row)) : State :=
  mkState b (match file with Some _ => true | None => false end) file 1.

(** [elem.text] as a statement *)
Definition text (e : Elem) : M string := call (EvText e) (elem_text e).

(** [int(browser.find_elements(By.CLASS_NAME, CAROUSEL_PAGE)[-2].text)],
    the expression under [try] in [get_total_pages]; the [except] clause
    prints and returns 0. *)
Definition pagination_lookup : M Z :=
  elems <- call (EvFindElements CLASS_NAME CAROUSEL_PAGE)
                (find_elements CLASS_NAME CAROUSEL_PAGE) ;;
  e <- of_option (Py.index_neg2 elems) IndexError ;;
  t <- text e ;;
  of_option (Py.int t) ValueError.

Definition get_total_pages : M Z :=
  try_except pagination_lookup
    (fun e => print (LogTotalPagesError e) ;; ret 0).

(** [item.find_element(By.CLASS_NAME, name).text.strip()] *)
Definition field (item : Elem) (name : string) : M string :=
  e <- call (EvElemFindElement item CLASS_NAME name)
            (elem_find_element item CLASS_NAME name) ;;
  t <- text e ;;
  ret (Py.strip t).

(** The [try] block of [_collect_track_info] for one item, and its
    [except] clause.  [Some t]: [page_tracks.append(t)] was reached. *)
Definition collect_item (item : Elem) (page_num : Z) : M (option Track) :=
  try_except
    (title <- field item DISCOVER_ITEM_TITLE ;;
     artist <- field item DISCOVER_ITEM_ARTIST ;;
     genre <- field item DISCOVER_ITEM_GENRE ;;
     i <- next_id ;;
     print (LogTrackCollected title) ;;
     ret (Some (mkTrack i page_num title artist genre)))
    (fun e => print (LogTrackError page_num e) ;; ret None).

(** The loop of [_collect_track_info], [page_tracks] being the list built so
    far. *)
Fixpoint collect_loop (visible_tracks : list Elem) (page_num : Z)
    (page_tracks : list Track) : M (list Track) :=
  match visible_tracks with
  | [] => ret page_tracks
  | item :: rest =>
      r <- collect_item item page_num ;;
      collect_loop rest page_num
        (match r with
         | Some t => page_tracks ++ [t]
         | None => page_tracks
         end)
  end.

Definition _collect_track_info (visible_tracks : list Elem) (page_num : Z)
  : M (list Track) :=
  collect_loop visible_tracks page_num [].

Definition _append_tracks_to_csv (data : list Track) : M unit :=
  open_append ;;
  exists_ <- get_file_exists ;;
  (if negb exists_
   then writerow Track_fields ;; set_file_exists true
   else ret tt) ;;
  writerows data.

(** [[item for item in discover_items if item.is_displayed()]] *)
Fixpoint displayed (discover_items : list Elem) : M (list Elem) :=
  match discover_items with
  | [] => ret []
  | item :: rest =>
      d <- call (EvIsDisplayed item) (elem_is_displayed item) ;;
      l <- displayed rest ;;
      ret (if d then item :: l else l)
  end.

(** The body of the [for] loop of [get_tracks]; [continue] ends it. *)
Definition get_tracks_page (page_num : Z) : M unit :=
  discover_section <- call (EvUntilVisible CLASS_NAME DISCOVER_BLOCK)
                           (until_visible CLASS_NAME DISCOVER_BLOCK) ;;
  discover_items <-
    call (EvElemFindElements discover_section CLASS_NAME DISCOVER_ITEM)
         (elem_find_elements discover_section CLASS_NAME DISCOVER_ITEM) ;;
  visible_tracks <- displayed discover_items ;;
  if negb (Z.of_nat (List.length visible_tracks) =? EXPECTED_TRACKS_PER_PAGE)%Z
  then
    print (LogExpectedTracks EXPECTED_TRACKS_PER_PAGE
             (Z.of_nat (List.length visible_tracks)) (page_num + 1))
  else
    page_tracks <- _collect_track_info visible_tracks (page_num + 1) ;;
    _append_tracks_to_csv page_tracks ;;
    next_button <- call (EvFindElement XPATH NEXT_BTN)
                        (find_element XPATH NEXT_BTN) ;;
    call (EvClick next_button) (elem_click next_button).

Definition get_tracks : M unit :=
  new_count 1 ;;
  total_pages <- get_total_pages ;;
  if (total_pages =? 0)%Z then ret tt
  else for_each (Py.range total_pages) get_tracks_page.

Definition close : M unit :=
  call EvQuit driver_quit ;;
  print LogBrowserClosed.

(** The module's last three lines, on the browser that the constructor
    started and the file found on disk. *)
Definition main (b : B) (file : option (list Row)) : Outcome unit :=
  (get_tracks ;; close) (__init__ b file).

(** ** Parts of the script named for the statements below *)

(** The three sub-element reads of one item, as the [try] block of
    [_collect_track_info] makes them. *)
Definition resolve (item : Elem) : M (string * string * string) :=
  title <- field item DISCOVER_ITEM_TITLE ;;
  artist <- field item DISCOVER_ITEM_ARTIST ;;
  genre <- field item DISCOVER_ITEM_GENRE ;;
  ret (title, artist, genre).

(** The first three statements of the loop body: the visible items of the
    page the browser shows. *)
Definition visible_tracks_at : M (list Elem) :=
  discover_section <- call (EvUntilVisible CLASS_NAME DISCOVER_BLOCK)
                           (until_visible CLASS_NAME DISCOVER_BLOCK) ;;
  discover_items <-
    call (EvElemFindElements discover_section CLASS_NAME DISCOVER_ITEM)
         (elem_find_elements discover_section CLASS_NAME DISCOVER_ITEM) ;;
  displayed discover_items.

(** The page shown in state [s] has a count of visible items other than
    [EXPECTED_TRACKS_PER_PAGE]. *)
Definition page_mismatch (s : State) : bool :=
  match result (visible_tracks_at s) with
  | Ok v => negb (Z.of_nat (List.length v) =? EXPECTED_TRACKS_PER_PAGE)%Z
  | Raise _ => false
  end.

(** Every iteration of the loop over [pages], started in [s], meets a page
    with a mismatching count. *)
Fixpoint every_page_mismatch (pages : list Z) (s : State) : bool :=
  match pages with
  | [] => true
  | page_num :: rest =>
      page_mismatch s
      && every_page_mismatch rest (final (get_tracks_page page_num s))
  end.

(** The records a [_collect_track_info] call returned. *)
Definition tracks_of (o : Outcome (list Track)) : list Track :=
  match result o with
  | Ok l => l
  | Raise _ => []
  end.

(** The rows of a file, none when there is no file. *)
Definition rows_of (file : option (list Row)) : list Row :=
  match file with
  | Some rows => rows
  | None => []
  end.

(** *** Reading a list of events *)

Definition is_file_event (ev : Event Elem) : bool :=
  match ev with
  | EvOpenAppend | EvWriterow _ | EvWriterows _ => true
  | _ => false
  end.

Definition file_events (evs : list (Event Elem)) : list (Event Elem) :=
  filter is_file_event evs.

(** The batches given to [writerows], in order. *)
Definition batches (evs : list (Event Elem)) : list (list Track) :=
  flat_map (fun ev => match ev with EvWriterows d => [d] | _ => [] end) evs.

(** The records written, in write order. *)
Definition written (evs : list (Event Elem)) : list Track :=
  List.concat (batches evs).

(** The rows given to [writerow]: the header rows written. *)
Definition headers (evs : list (Event Elem)) : list Row :=
  flat_map (fun ev => match ev with EvWriterow r => [r] | _ => [] end) evs.

(** How many times the file was opened. *)
Definition opens (evs : list (Event Elem)) : nat :=
  List.length (filter (fun ev => match ev with EvOpenAppend => true
                                          | _ => false end) evs).

(** How many clicks were made. *)
Definition clicks (evs : list (Event Elem)) : nat :=
  List.length (filter (fun ev => match ev with EvClick _ => true
                                          | _ => false end) evs).

(** How many sub-elements of items were looked up. *)
Definition lookups (evs : list (Event Elem)) : nat :=
  List.length (filter (fun ev => match ev with EvElemFindElement _ _ _ => true
                                          | _ => false end) evs).

(** The lines printed, in order. *)
Definition printed (evs : list (Event Elem)) : list LogLine :=
  flat_map (fun ev => match ev with EvPrint l => [l] | _ => [] end) evs.

(** The file events of successive [_append_tracks_to_csv] calls, one per
    batch, [exists_] being [self.file_exists] before the first. *)
Fixpoint writer_events (exists_ : bool) (datas : list (list Track))
  : list (Event Elem) :=
  match datas with
  | [] => []
  | data :: rest =>
      EvOpenAppend
        :: (if exists_ then [] else [EvWriterow Track_fields])
        ++ EvWriterows data :: writer_events true rest
  end.

(** The last two statements of the loop body. *)
Definition click_next : M unit :=
  next_button <- call (EvFindElement XPATH NEXT_BTN)
                      (find_element XPATH NEXT_BTN) ;;
  call (EvClick next_button) (elem_click next_button).

(** What a stretch of the run did to the file, from state [s] to state [s']
    with events [evs]: it called [_append_tracks_to_csv] once per batch of
    [datas], in order, and nothing else touched the file; the ids of the
    records are the cursor's values. *)
Definition run_writes (s s' : State) (evs : list (Event Elem))
    (datas : list (list Track)) : Prop :=
  file_events evs = writer_events (file_exists s) datas
  /\ csv_file s' =
     match datas with
     | [] => csv_file s
     | _ :: _ =>
         Some (rows_of (csv_file s)
               ++ (if file_exists s then [] else [Track_fields])
               ++ map track_row (List.concat datas))
     end
  /\ file_exists s' =
     (file_exists s || negb (Nat.eqb (List.length datas) 0))
  /\ map id (List.concat datas) =
     map (fun k => discovery_item_id s + Z.of_nat k)
         (seq 0 (List.length (List.concat datas)))
  /\ discovery_item_id s' =
     discovery_item_id s + Z.of_nat (List.length (List.concat datas))
  /\ Forall (fun d => (List.length d <= 8)%nat) datas.

(** The iterations that the loop over [pages] makes from state [s]: the
    loop index and the outcome of each, up to and including the first that
    raises. *)
Fixpoint iterations (pages : list Z) (s : State)
  : list (Z * Outcome unit) :=
  match pages with
  | [] => []
  | page_num :: rest =>
      let o := get_tracks_page page_num s in
      (page_num, o)
        :: match result o with
           | Ok _ => iterations rest (final o)
           | Raise _ => []
           end
  end.

(** [m] leaves the file and [self.file_exists] as they are. *)
Definition keeps_file {A : Type} (m : M A) : Prop :=
  forall s,
    file_exists (final (m s)) = file_exists s
    /\ csv_file (final (m s)) = csv_file s
    /\ file_events (events (m s)) = [].

(** [m] does not advance the id cursor. *)
Definition keeps_id {A : Type} (m : M A) : Prop :=
  forall s, discovery_item_id (final (m s)) = discovery_item_id s.

End Script.

(** [n, n+1, ..., n+len-1] *)
Definition ids_from (n : Z) (len : nat) : list Z :=
  map (fun k => n + Z.of_nat k) (seq 0 len).

(** ** A carousel: an implementation of the browser interface

    The page shows a pagination bar and a results block that holds the items
    of every carousel page; only the items of the current page are
    displayed.  Clicking the bar's [next] entry shows the following page. *)

Module Carousel.

(** An item of the results block.  [None]: the item has no sub-element of
    that class. *)
Record Item : Type := mkItem {
  shown : bool;
  item_title : option string;
  item_artist : option string;
  item_genre : option string
}.

Record Browser : Type := mkBrowser {
  bar : list string;          (** texts of the [item-page] elements *)
  pages : list (list Item);
  current : nat               (** index of the page shown, from 0 *)
}.

Inductive Elem : Type :=
| Bar (i : nat)
| Block
| ItemAt (p i : nat)
| Sub (p i : nat) (name : string).

Definition item_at (b : Browser) (p i : nat) : option Item :=
  match nth_error (pages b) p with
  | Some l => nth_error l i
  | None => None
  end.

Definition sub_text (it : Item) (name : string) : option string :=
  if name =? DiscoverLocators.DISCOVER_ITEM_TITLE then item_title it
  else if name =? DiscoverLocators.DISCOVER_ITEM_ARTIST then item_artist it
  else if name =? DiscoverLocators.DISCOVER_ITEM_GENRE then item_genre it
  else None.

(** Index of the first entry of the bar with text [next]. *)
Fixpoint next_index (l : list string) (i : nat) : option nat :=
  match l with
  | [] => None
  | t :: l' => if t =? "next" then Some i else next_index l' (S i)
  end.

Definition all_items (b : Browser) : list Elem :=
  List.concat (map (fun '(p, l) => map (ItemAt p) (seq 0 (List.length l)))
              (combine (seq 0 (List.length (pages b))) (pages b))).

Definition c_find_elements (by_ : By) (value : string) (b : Browser)
  : Res (list Elem) * Browser :=
  match by_ with
  | CLASS_NAME =>
      if value =? DiscoverLocators.CAROUSEL_PAGE
      then (Ok (map Bar (seq 0 (List.length (bar b)))), b)
      else (Ok [], b)
  | XPATH => (Ok [], b)
  end.

Definition c_find_element (by_ : By) (value : string) (b : Browser)
  : Res Elem * Browser :=
  match by_ with
  | XPATH =>
      if value =? DiscoverLocators.NEXT_BTN
      then match next_index (bar b) 0 with
           | Some i => (Ok (Bar i), b)
           | None => (Raise NoSuchElementException, b)
           end
      else (Raise NoSuchElementException, b)
  | CLASS_NAME => (Raise NoSuchElementException, b)
  end.

Definition c_until_visible (by_ : By) (value : string) (b : Browser)
  : Res Elem * Browser :=
  match by_ with
  | CLASS_NAME =>
      if value =? DiscoverLocators.DISCOVER_BLOCK then (Ok Block, b)
      else (Raise TimeoutException, b)
  | XPATH => (Raise TimeoutException, b)
  end.

Definition c_elem_find_elements (e : Elem) (by_ : By) (value : string)
    (b : Browser) : Res (list Elem) * Browser :=
  match e, by_ with
  | Block, CLASS_NAME =>
      if value =? DiscoverLocators.DISCOVER_ITEM then (Ok (all_items b), b)
      else (Ok [], b)
  | _, _ => (Ok [], b)
  end.

Definition c_elem_find_element (e : Elem) (by_ : By) (value : string)
    (b : Browser) : Res Elem * Browser :=
  match e, by_ with
  | ItemAt p i, CLASS_NAME =>
      match item_at b p i with
      | Some it =>
          match sub_text it value with
          | Some _ => (Ok (Sub p i value), b)
          | None => (Raise NoSuchElementException, b)
          end
      | None => (Raise StaleElementReferenceException, b)
      end
  | _, _ => (Raise NoSuchElementException, b)
  end.

Definition c_elem_text (e : Elem) (b : Browser) : Res string * Browser :=
  match e with
  | Bar i =>
      match nth_error (bar b) i with
      | Some t => (Ok t, b)
      | None => (Raise StaleElementReferenceException, b)
      end
  | Sub p i name =>
      match item_at b p i with
      | Some it =>
          match sub_text it name with
          | Some t => (Ok t, b)
          | None => (Raise StaleElementReferenceException, b)
          end
      | None => (Raise StaleElementReferenceException, b)
      end
  | Block | ItemAt _ _ => (Ok EmptyString, b)
  end.

Definition c_elem_is_displayed (e : Elem) (b : Browser)
  : Res bool * Browser :=
  match e with
  | ItemAt p i =>
      match item_at b p i with
      | Some it => (Ok ((p =? current b)%nat && shown it), b)
      | None => (Raise StaleElementReferenceException, b)
      end
  | _ => (Ok true, b)
  end.

Definition c_elem_click (e : Elem) (b : Browser) : Res unit * Browser :=
  match e with
  | Bar i =>
      match nth_error (bar b) i with
      | Some t =>
          if t =? "next"
          then (Ok tt, mkBrowser (bar b) (pages b) (S (current b)))
          else (Ok tt, b)
      | None => (Raise StaleElementReferenceException, b)
      end
  | _ => (Ok tt, b)
  end.

Definition c_quit (b : Browser) : Res unit * Browser := (Ok tt, b).

#[export] Instance driver : WebDriver Browser Elem := {
  find_elements := c_find_elements;
  find_element := c_find_element;
  until_visible := c_until_visible;
  elem_find_elements := c_elem_find_elements;
  elem_find_element := c_elem_find_element;
  elem_text := c_elem_text;
  elem_is_displayed := c_elem_is_displayed;
  elem_click := c_elem_click;
  driver_quit := c_quit
}.

(** A displayed item with all three sub-elements. *)
Definition item (t a g : string) : Item :=
  mkItem true (Some t) (Some a) (Some g).

(** An item is well formed: displayed on its page, three sub-elements. *)
Definition well_formed (it : Item) : bool :=
  shown it
  && match item_title it, item_artist it, item_genre it with
     | Some _, Some _, Some _ => true
     | _, _, _ => false
     end.

(** A carousel on its first page, the bar listing the page numbers and
    [next]. *)
Definition two_pages (p1 p2 : list Item) : Browser :=
  mkBrowser ["1"; "2"; "next"] [p1; p2] 0.

(** The record the script makes of a well-formed item. *)
Definition track_of (i page_num : Z) (it : Item) : Track :=
  mkTrack i page_num
          (Py.strip (match item_title it with Some t => t | None => EmptyString end))
          (Py.strip (match item_artist it with Some t => t | None => EmptyString end))
          (Py.strip (match item_genre it with Some t => t | None => EmptyString end)).

(** Records of the items [l], numbered from [i]. *)
Fixpoint tracks_from (i page_num : Z) (l : list Item) : list Track :=
  match l with
  | [] => []
  | it :: l' => track_of i page_num it :: tracks_from (i + 1) page_num l'
  end.

(** Pages used as examples. *)
Definition full_page : list Item :=
  map (fun t => item t "Band" "rock") ["a"; "b"; "c"; "d"; "e"; "f"; "g"; "h"].

Definition short_page : list Item := firstn 7 full_page.

(** An item without an artist sub-element. *)
Definition broken : Item := mkItem true (Some "x") None (Some "rock").

(** A page of 8 displayed items, none of which has an artist. *)
Definition broken_page : list Item := repeat broken 8.

End Carousel.

(** ** The spec's words, to compare with the code *)

(** The field names as the spec lists them. *)
Definition spec_field_names : Row :=
  [CStr "sequence_id"; CStr "page_number"; CStr "title"; CStr "artist";
   CStr "genre"].

(** The store is empty or does not exist. *)
Definition empty_or_nonexistent (file : option (list Row)) : bool :=
  match file with
  | None | Some [] => true
  | Some (_ :: _) => false
  end.

(** ** More ways to read a run *)

(** Text without leading or trailing whitespace. *)
Definition starts_with_space (s : string) : bool :=
  match s with
  | EmptyString => false
  | String c _ => Py.is_space c
  end.

Fixpoint ends_with_space (s : string) : bool :=
  match s with
  | EmptyString => false
  | String c EmptyString => Py.is_space c
  | String _ s' => ends_with_space s'
  end.

Definition trimmed (s : string) : bool :=
  negb (starts_with_space s) && negb (ends_with_space s).

(** The three text fields of a record are trimmed. *)
Definition trimmed_track (t : Track) : bool :=
  trimmed (title t) && trimmed (artist t) && trimmed (genre t).

(** The batches [datas] come from pages of [pages], in the order of
    [pages], at most one batch per page, and the records of a batch carry
    the number of its page. *)
Inductive from_pages : list Z -> list (list Track) -> Prop :=
| from_pages_nil (pages : list Z) : from_pages pages []
| from_pages_skip (p : Z) (pages : list Z) (datas : list (list Track)) :
    from_pages pages datas -> from_pages (p :: pages) datas
| from_pages_take (p : Z) (pages : list Z) (d : list Track)
    (datas : list (list Track)) :
    Forall (fun t => page t = p + 1) d ->
    from_pages pages datas -> from_pages (p :: pages) (d :: datas).

Section Reading.

Context {B Elem : Type}.

Definition is_click (ev : Event Elem) : bool :=
  match ev with EvClick _ => true | _ => false end.

Definition is_open (ev : Event Elem) : bool :=
  match ev with EvOpenAppend => true | _ => false end.

Definition is_quit (ev : Event Elem) : bool :=
  match ev with EvQuit => true | _ => false end.

Definition is_wait (ev : Event Elem) : bool :=
  match ev with EvUntilVisible _ _ => true | _ => false end.

Definition is_print (ev : Event Elem) : bool :=
  match ev with EvPrint _ => true | _ => false end.

Definition is_text (ev : Event Elem) : bool :=
  match ev with EvText _ => true | _ => false end.

Definition is_lookup (ev : Event Elem) : bool :=
  match ev with EvElemFindElement _ _ _ => true | _ => false end.

(** How many events of [evs] satisfy [P]. *)
Definition count_events (P : Event Elem -> bool) (evs : list (Event Elem))
  : nat :=
  List.length (filter P evs).

(** [m] causes no event that satisfies [P]. *)
Definition silent {A : Type} (P : Event Elem -> bool) (m : @M B Elem A)
  : Prop :=
  forall s, filter P (events (m s)) = [].

(** The titles printed as collected, in order. *)
Definition collected (evs : list (Event Elem)) : list string :=
  flat_map (fun ev => match ev with
                      | EvPrint (LogTrackCollected t) => [t]
                      | _ => []
                      end) evs.

(** The page numbers of the item errors printed, in order. *)
Definition item_errors (evs : list (Event Elem)) : list Z :=
  flat_map (fun ev => match ev with
                      | EvPrint (LogTrackError p _) => [p]
                      | _ => []
                      end) evs.

End Reading.

(** * Properties *)

Notation "x <- m ;; k" := (bind m (fun x => k))
  (at level 61, m at next level, right associativity).
Notation "m ;; k" := (bind m (fun _ => k))
  (at level 61, right associativity).

Section Properties.

Context {B Elem : Type} {WD : WebDriver B Elem}.

Abbreviation State := (@State B).
Abbreviation M := (@M B Elem).
Abbreviation Outcome := (@Outcome B Elem).
Abbreviation Event := (Event Elem).
Abbreviation _append_tracks_to_csv := (@_append_tracks_to_csv B Elem).
Abbreviation print := (@print B Elem).

Import DiscoverLocators.

(** ** The monad *)

Lemma outcome_eta (A : Type) (o : Outcome A) :
  o = mkOutcome (result o) (final o) (events o).
Proof. destruct o; reflexivity. Qed.

Lemma bind_ok (A C : Type) (m : M A) (f : A -> M C) (s : State) (a : A) :
  result (m s) = Ok a ->
  bind m f s =
  mkOutcome (result (f a (final (m s)))) (final (f a (final (m s))))
            (events (m s) ++ events (f a (final (m s)))).
Proof.
  unfold bind. destruct (m s) as [r s1 evs1]. simpl. intros ->.
  destruct (f a s1); reflexivity.
Qed.

Lemma bind_raise (A C : Type) (m : M A) (f : A -> M C) (s : State) (e : exn) :
  result (m s) = Raise e ->
  bind m f s = mkOutcome (Raise e) (final (m s)) (events (m s)).
Proof.
  unfold bind. destruct (m s) as [r s1 evs1]. simpl. intros ->. reflexivity.
Qed.

Lemma try_ok (A : Type) (m : M A) (h : exn -> M A) (s : State) (a : A) :
  result (m s) = Ok a -> try_except m h s = m s.
Proof.
  unfold try_except. destruct (m s) as [r s1 evs1]. simpl. intros ->.
  reflexivity.
Qed.

Lemma try_raise (A : Type) (m : M A) (h : exn -> M A) (s : State) (e : exn) :
  result (m s) = Raise e ->
  try_except m h s =
  mkOutcome (result (h e (final (m s)))) (final (h e (final (m s))))
            (events (m s) ++ events (h e (final (m s)))).
Proof.
  unfold try_except. destruct (m s) as [r s1 evs1]. simpl. intros ->.
  destruct (h e s1); reflexivity.
Qed.

Lemma bind_assoc (A C D : Type) (m : M A) (f : A -> M C) (g : C -> M D)
    (s : State) :
  bind (bind m f) g s = bind m (fun a => bind (f a) g) s.
Proof.
  unfold bind. destruct (m s) as [[a|e] s1 evs1]; [|reflexivity].
  destruct (f a s1) as [[c|e] s2 evs2]; [|reflexivity].
  destruct (g c s2) as [r s3 evs3]. rewrite app_assoc. reflexivity.
Qed.

(** ** Reading events *)

Lemma file_events_app (l1 l2 : list Event) :
  file_events (l1 ++ l2) = file_events l1 ++ file_events l2.
Proof. apply filter_app. Qed.

Lemma batches_app (l1 l2 : list Event) :
  batches (l1 ++ l2) = batches l1 ++ batches l2.
Proof. apply flat_map_app. Qed.

Lemma headers_app (l1 l2 : list Event) :
  headers (l1 ++ l2) = headers l1 ++ headers l2.
Proof. apply flat_map_app. Qed.

Lemma written_app (l1 l2 : list Event) :
  written (l1 ++ l2) = written l1 ++ written l2.
Proof. unfold written. rewrite batches_app. apply concat_app. Qed.

Lemma opens_app (l1 l2 : list Event) :
  opens (l1 ++ l2) = (opens l1 + opens l2)%nat.
Proof. unfold opens. rewrite filter_app. apply length_app. Qed.

Lemma batches_file_events (l : list Event) :
  batches (file_events l) = batches l.
Proof.
  induction l as [|ev l IH]; [reflexivity|].
  destruct ev; simpl; try exact IH. f_equal. exact IH.
Qed.

Lemma headers_file_events (l : list Event) :
  headers (file_events l) = headers l.
Proof.
  induction l as [|ev l IH]; [reflexivity|].
  destruct ev; simpl; try exact IH. f_equal. exact IH.
Qed.

Lemma opens_file_events (l : list Event) :
  opens (file_events l) = opens l.
Proof.
  induction l as [|ev l IH]; [reflexivity|].
  destruct ev; simpl; try exact IH.
  unfold opens in *. simpl. f_equal. exact IH.
Qed.

Lemma batches_writer_events (exists_ : bool) (datas : list (list Track)) :
  batches (writer_events (Elem:=Elem) exists_ datas) = datas.
Proof.
  revert exists_. induction datas as [|d ds IH]; intros ex; [reflexivity|].
  simpl. destruct ex; simpl; rewrite IH; reflexivity.
Qed.

Lemma headers_writer_events (exists_ : bool) (datas : list (list Track)) :
  headers (writer_events (Elem:=Elem) exists_ datas) =
  match datas with
  | [] => []
  | _ :: _ => if exists_ then [] else [Track_fields]
  end.
Proof.
  assert (T : forall ds, headers (writer_events (Elem:=Elem) true ds) = []).
  { induction ds as [|d ds IH]; [reflexivity|]. simpl. exact IH. }
  destruct datas as [|d ds]; [reflexivity|].
  simpl. destruct exists_; simpl; rewrite T; reflexivity.
Qed.

Lemma opens_writer_events (exists_ : bool) (datas : list (list Track)) :
  opens (writer_events (Elem:=Elem) exists_ datas) = List.length datas.
Proof.
  revert exists_. induction datas as [|d ds IH]; intros ex; [reflexivity|].
  simpl. destruct ex; unfold opens in *; simpl; f_equal; apply IH.
Qed.

Lemma writer_events_app (exists_ : bool) (d1 d2 : list (list Track)) :
  writer_events (Elem:=Elem) exists_ (d1 ++ d2) =
  writer_events exists_ d1
  ++ writer_events (exists_ || negb (Nat.eqb (List.length d1) 0)) d2.
Proof.
  destruct d1 as [|d d1]; simpl.
  - rewrite orb_false_r. reflexivity.
  - rewrite orb_true_r.
    assert (T : forall l, writer_events (Elem:=Elem) true (l ++ d2) =
                          writer_events true l ++ writer_events true d2).
    { induction l as [|x l IH]; [reflexivity|]. simpl. rewrite IH.
      reflexivity. }
    rewrite T. destruct exists_; simpl; reflexivity.
Qed.

(** ** What a statement leaves alone *)

Lemma keeps_file_ret (A : Type) (a : A) : keeps_file (ret a : M A).
Proof. intros s. simpl. auto. Qed.

Lemma keeps_file_raise (A : Type) (e : exn) : keeps_file (raise e : M A).
Proof. intros s. simpl. auto. Qed.

Lemma keeps_file_call (A : Type) (ev : Event) (op : B -> Res A * B) :
  is_file_event ev = false -> keeps_file (call ev op).
Proof.
  intros H s. unfold call. destruct (op (browser s)) as [r b]. simpl.
  rewrite H. auto.
Qed.

Lemma keeps_file_print (l : LogLine) : keeps_file (print l : M unit).
Proof. intros s. simpl. auto. Qed.

Lemma keeps_file_of_option (A : Type) (o : option A) (e : exn) :
  keeps_file (of_option o e : M A).
Proof. destruct o; [apply keeps_file_ret | apply keeps_file_raise]. Qed.

Lemma keeps_file_next_id : keeps_file (next_id : M Z).
Proof. intros s. simpl. auto. Qed.

Lemma keeps_file_new_count (n : Z) : keeps_file (new_count n : M unit).
Proof. intros s. simpl. auto. Qed.

Lemma keeps_file_bind (A C : Type) (m : M A) (f : A -> M C) :
  keeps_file m -> (forall a, keeps_file (f a)) -> keeps_file (bind m f).
Proof.
  intros Hm Hf s. unfold bind.
  destruct (Hm s) as (H1 & H2 & H3).
  destruct (m s) as [[a|e] s1 evs1]; simpl in *; [|auto].
  destruct (Hf a s1) as (G1 & G2 & G3).
  destruct (f a s1) as [r s2 evs2]; simpl in *.
  rewrite file_events_app, H3, G3, G1, G2. auto.
Qed.

Lemma keeps_file_try (A : Type) (m : M A) (h : exn -> M A) :
  keeps_file m -> (forall e, keeps_file (h e)) -> keeps_file (try_except m h).
Proof.
  intros Hm Hh s. unfold try_except.
  destruct (Hm s) as (H1 & H2 & H3).
  destruct (m s) as [[a|e] s1 evs1]; simpl in *; [auto|].
  destruct (Hh e s1) as (G1 & G2 & G3).
  destruct (h e s1) as [r s2 evs2]; simpl in *.
  rewrite file_events_app, H3, G3, G1, G2. auto.
Qed.

Lemma keeps_id_ret (A : Type) (a : A) : keeps_id (ret a : M A).
Proof. intros s. reflexivity. Qed.

Lemma keeps_id_raise (A : Type) (e : exn) : keeps_id (raise e : M A).
Proof. intros s. reflexivity. Qed.

Lemma keeps_id_call (A : Type) (ev : Event) (op : B -> Res A * B) :
  keeps_id (call ev op).
Proof.
  intros s. unfold call. destruct (op (browser s)) as [r b]. reflexivity.
Qed.

Lemma keeps_id_print (l : LogLine) : keeps_id (print l : M unit).
Proof. intros s. reflexivity. Qed.

Lemma keeps_id_of_option (A : Type) (o : option A) (e : exn) :
  keeps_id (of_option o e : M A).
Proof. destruct o; intros s; reflexivity. Qed.

Lemma keeps_id_bind (A C : Type) (m : M A) (f : A -> M C) :
  keeps_id m -> (forall a, keeps_id (f a)) -> keeps_id (bind m f).
Proof.
  intros Hm Hf s. unfold bind. specialize (Hm s).
  destruct (m s) as [[a|e] s1 evs1]; simpl in *; [|exact Hm].
  specialize (Hf a s1). destruct (f a s1) as [r s2 evs2]; simpl in *.
  congruence.
Qed.

Lemma keeps_id_try (A : Type) (m : M A) (h : exn -> M A) :
  keeps_id m -> (forall e, keeps_id (h e)) -> keeps_id (try_except m h).
Proof.
  intros Hm Hh s. unfold try_except. specialize (Hm s).
  destruct (m s) as [[a|e] s1 evs1]; simpl in *; [exact Hm|].
  specialize (Hh e s1). destruct (h e s1) as [r s2 evs2]; simpl in *.
  congruence.
Qed.

(** Statements built from the pieces above, taken apart piece by piece. *)
Ltac frame :=
  repeat first
    [ progress intros
    | apply keeps_file_bind | apply keeps_file_try
    | apply keeps_file_ret | apply keeps_file_raise
    | apply keeps_file_print | apply keeps_file_of_option
    | apply keeps_file_next_id | apply keeps_file_new_count
    | apply keeps_file_call; reflexivity
    | apply keeps_id_bind | apply keeps_id_try
    | apply keeps_id_ret | apply keeps_id_raise
    | apply keeps_id_print | apply keeps_id_of_option
    | apply keeps_id_call
    | match goal with
      | |- keeps_file (if ?c then _ else _) => destruct c
      | |- keeps_id (if ?c then _ else _) => destruct c
      end ].

Lemma keeps_file_field (item : Elem) (name : string) :
  keeps_file (field item name).
Proof. unfold field, text. frame. Qed.

Lemma keeps_id_field (item : Elem) (name : string) :
  keeps_id (field item name).
Proof. unfold field, text. frame. Qed.

Lemma keeps_file_resolve (item : Elem) : keeps_file (resolve item).
Proof. unfold resolve, field, text. frame. Qed.

Lemma keeps_id_resolve (item : Elem) : keeps_id (resolve item).
Proof. unfold resolve, field, text. frame. Qed.

Lemma keeps_file_pagination_lookup : keeps_file pagination_lookup.
Proof. unfold pagination_lookup, text. frame. Qed.

Lemma keeps_id_pagination_lookup : keeps_id pagination_lookup.
Proof. unfold pagination_lookup, text. frame. Qed.

Lemma keeps_file_get_total_pages : keeps_file get_total_pages.
Proof. unfold get_total_pages, pagination_lookup, text. frame. Qed.

Lemma keeps_id_get_total_pages : keeps_id get_total_pages.
Proof. unfold get_total_pages, pagination_lookup, text. frame. Qed.

Lemma keeps_file_displayed (items : list Elem) : keeps_file (displayed items).
Proof. induction items as [|item rest IH]; simpl; frame; exact IH. Qed.

Lemma keeps_id_displayed (items : list Elem) : keeps_id (displayed items).
Proof. induction items as [|item rest IH]; simpl; frame; exact IH. Qed.

Lemma keeps_file_visible_tracks_at : keeps_file visible_tracks_at.
Proof. unfold visible_tracks_at. frame; apply keeps_file_displayed. Qed.

Lemma keeps_id_visible_tracks_at : keeps_id visible_tracks_at.
Proof. unfold visible_tracks_at. frame; apply keeps_id_displayed. Qed.

Lemma keeps_file_collect_item (item : Elem) (page_num : Z) :
  keeps_file (collect_item item page_num).
Proof. unfold collect_item, field, text. frame. Qed.

Lemma keeps_file_collect_loop (items : list Elem) (page_num : Z)
    (acc : list Track) :
  keeps_file (collect_loop items page_num acc).
Proof.
  revert acc. induction items as [|item rest IH]; intros acc; simpl; frame;
    first [apply keeps_file_collect_item | apply IH].
Qed.

Lemma keeps_file_close : keeps_file close.
Proof. unfold close. frame. Qed.

Lemma keeps_id_close : keeps_id close.
Proof. unfold close. frame. Qed.

(** ** [_collect_track_info] *)

(** Case analysis on the answers of the driver calls in the goal. *)
Ltac driver_cases :=
  repeat match goal with
    | |- context [elem_find_element ?i ?b ?n ?x] =>
        destruct (elem_find_element i b n x) as [[?|?] ?]; simpl
    | |- context [elem_text ?i ?x] =>
        destruct (elem_text i x) as [[?|?] ?]; simpl
    | |- context [find_elements ?b ?n ?x] =>
        destruct (find_elements b n x) as [[?|?] ?]; simpl
    | |- context [find_element ?b ?n ?x] =>
        destruct (find_element b n x) as [[?|?] ?]; simpl
    | |- context [elem_click ?i ?x] =>
        destruct (elem_click i x) as [[?|?] ?]; simpl
    | |- context [driver_quit ?x] =>
        destruct (driver_quit x) as [[?|?] ?]; simpl
    end.

(** One item: either the three reads succeed, and the record takes the next
    id, or one of them raises, and the [except] clause prints. *)
Lemma collect_item_eq (item : Elem) (page_num : Z) (s : State) :
  collect_item item page_num s =
  let o := resolve item s in
  match result o with
  | Ok (t, a, g) =>
      mkOutcome (Ok (Some (mkTrack (discovery_item_id (final o))
                                   page_num t a g)))
                (final ((next_id : M Z) (final o)))
                (events o ++ [EvPrint (LogTrackCollected t)])
  | Raise e =>
      mkOutcome (Ok None) (final o)
                (events o ++ [EvPrint (LogTrackError page_num e)])
  end.
Proof.
  unfold collect_item, resolve, field, text, try_except, bind, call, ret,
    next_id, print, emit.
  simpl. driver_cases; reflexivity.
Qed.

Lemma bind_cong (A C : Type) (m : M A) (f g : A -> M C) (s : State) :
  (forall a s', f a s' = g a s') -> bind m f s = bind m g s.
Proof.
  intros H. unfold bind. destruct (m s) as [[a|e] s1 evs1]; [|reflexivity].
  rewrite H. reflexivity.
Qed.

Lemma collect_item_ok (item : Elem) (page_num : Z) (s : State) :
  exists r, result (collect_item item page_num s) = Ok r.
Proof.
  rewrite collect_item_eq. simpl.
  destruct (result (resolve item s)) as [[[t a] g]|e]; simpl; eauto.
Qed.

Lemma collect_item_spec (item : Elem) (page_num : Z) (s : State) :
  let o := collect_item item page_num s in
  (exists t, result o = Ok (Some t)
             /\ id t = discovery_item_id s /\ page t = page_num
             /\ discovery_item_id (final o) = discovery_item_id s + 1)
  \/ (result o = Ok None
      /\ discovery_item_id (final o) = discovery_item_id s).
Proof.
  simpl. rewrite collect_item_eq. simpl.
  pose proof (keeps_id_resolve item s) as K.
  destruct (result (resolve item s)) as [[[t a] g]|e]; simpl.
  - left. eexists. split; [reflexivity|]. simpl. rewrite K. auto.
  - right. auto.
Qed.

Lemma ids_from_S (n : Z) (len : nat) :
  ids_from n (S len) = n :: ids_from (n + 1) len.
Proof.
  unfold ids_from. simpl. rewrite Z.add_0_r. f_equal.
  rewrite <- seq_shift, map_map. apply map_ext. intros k. lia.
Qed.

Lemma ids_from_app (n : Z) (a b : nat) :
  ids_from n (a + b) = ids_from n a ++ ids_from (n + Z.of_nat a) b.
Proof.
  revert n. induction a as [|a IH]; intros n.
  - simpl. rewrite Z.add_0_r. reflexivity.
  - change (S a + b)%nat with (S (a + b)). rewrite !ids_from_S, IH. simpl.
    do 3 f_equal. lia.
Qed.

Lemma ids_from_length (n : Z) (len : nat) :
  List.length (ids_from n len) = len.
Proof. unfold ids_from. rewrite length_map. apply length_seq. Qed.

(** The loop returns, whatever the browser answers, and the records it adds
    take the ids from the cursor on, one each. *)
Lemma collect_loop_spec (items : list Elem) (page_num : Z) :
  forall (acc : list Track) (s : State),
    let o := collect_loop items page_num acc s in
    exists new,
      result o = Ok (acc ++ new)
      /\ map id new = ids_from (discovery_item_id s) (List.length new)
      /\ discovery_item_id (final o)
         = discovery_item_id s + Z.of_nat (List.length new)
      /\ Forall (fun t => page t = page_num) new
      /\ (List.length new <= List.length items)%nat.
Proof.
  induction items as [|item rest IH]; intros acc s; simpl.
  - exists []. rewrite app_nil_r. simpl. repeat split; auto. lia.
  - destruct (collect_item_spec item page_num s)
      as [(t & R & I & P & N) | (R & N)];
      rewrite (bind_ok _ _ _ R); simpl;
      match goal with
      | |- context [collect_loop rest page_num ?a ?s1] =>
          destruct (IH a s1) as (new & R' & I' & N' & P' & L')
      end.
    + exists (t :: new). rewrite R', <- app_assoc. simpl.
      split; [reflexivity|]. rewrite ids_from_S, I', N', N, I.
      repeat split; auto; lia.
    + exists new. rewrite R', I', N', N. repeat split; auto.
Qed.

Lemma collect_loop_acc (items : list Elem) (page_num : Z) :
  forall (acc : list Track) (s : State),
    let o := collect_loop items page_num [] s in
    collect_loop items page_num acc s =
    mkOutcome (Ok (acc ++ tracks_of o)) (final o) (events o).
Proof.
  induction items as [|item rest IH]; intros acc s; simpl.
  - unfold ret, tracks_of. simpl. rewrite app_nil_r. reflexivity.
  - destruct (collect_item_ok item page_num s) as [r R].
    rewrite !(bind_ok _ _ _ R).
    rewrite (IH (match r with Some t => acc ++ [t] | None => acc end)).
    rewrite (IH (match r with Some t => [] ++ [t] | None => [] end)).
    simpl. unfold tracks_of. simpl. f_equal. f_equal.
    destruct r; simpl; [rewrite <- app_assoc|]; reflexivity.
Qed.

Lemma collect_loop_app (l1 l2 : list Elem) (page_num : Z) :
  forall (acc : list Track) (s : State),
    collect_loop (l1 ++ l2) page_num acc s =
    (acc1 <- collect_loop l1 page_num acc ;; collect_loop l2 page_num acc1) s.
Proof.
  induction l1 as [|item rest IH]; intros acc s; simpl.
  - unfold bind, ret. destruct (collect_loop l2 page_num acc s). reflexivity.
  - rewrite bind_assoc. apply bind_cong. intros r s'. apply IH.
Qed.

(** ** [_append_tracks_to_csv] *)

Lemma append_eq (data : list Track) (s : State) :
  _append_tracks_to_csv data s =
  mkOutcome (Ok tt)
    (mkState (browser s) true
       (Some (rows_of (csv_file s)
              ++ (if file_exists s then [] else [Track_fields])
              ++ map track_row data))
       (discovery_item_id s))
    (EvOpenAppend
       :: (if file_exists s then [] else [EvWriterow Track_fields])
       ++ [EvWriterows data]).
Proof.
  destruct s as [b fe file n].
  destruct fe, file as [rows|]; try reflexivity.
  unfold _append_tracks_to_csv, bind. simpl. rewrite <- app_assoc.
  reflexivity.
Qed.

(** ** One page *)

Lemma keeps_file_click_next : keeps_file click_next.
Proof. unfold click_next. frame. Qed.

Lemma keeps_id_click_next : keeps_id click_next.
Proof. unfold click_next. frame. Qed.

Lemma get_tracks_page_eq (page_num : Z) (s : State) :
  get_tracks_page page_num s =
  (visible_tracks <- visible_tracks_at ;;
   if negb (Z.of_nat (List.length visible_tracks) =? EXPECTED_TRACKS_PER_PAGE)%Z
   then print (LogExpectedTracks EXPECTED_TRACKS_PER_PAGE
                 (Z.of_nat (List.length visible_tracks)) (page_num + 1))
   else page_tracks <- _collect_track_info visible_tracks (page_num + 1) ;;
        _append_tracks_to_csv page_tracks ;;
        click_next) s.
Proof.
  unfold get_tracks_page, visible_tracks_at.
  rewrite bind_assoc. apply bind_cong. intros a s1.
  rewrite bind_assoc. reflexivity.
Qed.

(** A page with a mismatching count: the warning is printed and the
    iteration ends there. *)
Lemma page_mismatch_step (page_num : Z) (s : State) :
  page_mismatch s = true ->
  exists v,
    result (visible_tracks_at s) = Ok v
    /\ Z.of_nat (List.length v) <> EXPECTED_TRACKS_PER_PAGE
    /\ get_tracks_page page_num s =
       mkOutcome (Ok tt) (final (visible_tracks_at s))
         (events (visible_tracks_at s)
          ++ [EvPrint (LogExpectedTracks EXPECTED_TRACKS_PER_PAGE
                         (Z.of_nat (List.length v)) (page_num + 1))]).
Proof.
  unfold page_mismatch. intros H.
  destruct (result (visible_tracks_at s)) as [v|e] eqn:R; [|discriminate].
  exists v. split; [reflexivity|].
  split.
  - intros E. rewrite E in H. discriminate.
  - rewrite get_tracks_page_eq, (bind_ok _ _ _ R), H. reflexivity.
Qed.

Lemma run_writes_quiet (A : Type) (m : M A) (s : State) :
  keeps_file m -> keeps_id m ->
  run_writes s (final (m s)) (events (m s)) [].
Proof.
  intros F I. destruct (F s) as (F1 & F2 & F3). specialize (I s).
  unfold run_writes. simpl. rewrite orb_false_r, Z.add_0_r. auto 10.
Qed.

Lemma run_writes_app (s s1 s2 : State) (evs1 evs2 : list Event)
    (d1 d2 : list (list Track)) :
  run_writes s s1 evs1 d1 -> run_writes s1 s2 evs2 d2 ->
  run_writes s s2 (evs1 ++ evs2) (d1 ++ d2).
Proof.
  intros (E1 & C1 & F1 & I1 & N1 & L1) (E2 & C2 & F2 & I2 & N2 & L2).
  unfold run_writes.
  split; [|split; [|split; [|split; [|split]]]].
  - rewrite file_events_app, writer_events_app, E1, E2, F1. reflexivity.
  - destruct d1 as [|x d1]; simpl in *.
    + rewrite orb_false_r in F1. rewrite C2, C1, F1. reflexivity.
    + rewrite orb_true_r in F1. rewrite C2, C1, F1. simpl.
      destruct d2 as [|y d2]; simpl.
      * rewrite !app_nil_r. reflexivity.
      * f_equal. rewrite <- !app_assoc. f_equal. f_equal.
        rewrite concat_app, !map_app. simpl. rewrite map_app.
        rewrite <- !app_assoc. reflexivity.
  - rewrite F2, F1, length_app. destruct d1, d2; simpl;
      rewrite ?orb_false_r, ?orb_true_r; reflexivity.
  - rewrite concat_app, map_app, length_app, I1, I2, N1.
    symmetry. exact (ids_from_app _ _ _).
  - rewrite concat_app, length_app, N2, N1. lia.
  - apply Forall_app. auto.
Qed.

(** One iteration of the loop either leaves the file alone or makes one
    [_append_tracks_to_csv] call with at most 8 records of this page. *)
Lemma page_step (page_num : Z) (s : State) :
  let o := get_tracks_page page_num s in
  run_writes s (final o) (events o) []
  \/ exists data,
       run_writes s (final o) (events o) [data]
       /\ Forall (fun t => page t = page_num + 1) data.
Proof.
  simpl. rewrite get_tracks_page_eq.
  pose proof (run_writes_quiet s keeps_file_visible_tracks_at
                keeps_id_visible_tracks_at) as Q.
  destruct (result (visible_tracks_at s)) as [v|e] eqn:R.
  2:{ left. rewrite (bind_raise _ _ _ R). exact Q. }
  rewrite (bind_ok _ _ _ R). simpl.
  set (s1 := final (visible_tracks_at s)) in *.
  destruct (Z.of_nat (List.length v) =? EXPECTED_TRACKS_PER_PAGE)%Z eqn:E; simpl.
  - right.
    destruct (collect_loop_spec v (page_num + 1) [] s1)
      as (data & R1 & I1 & N1 & P1 & L1).
    simpl in R1. unfold _collect_track_info.
    rewrite (bind_ok _ _ _ R1). simpl.
    pose proof (keeps_file_collect_loop v (page_num + 1) [] s1) as (K1 & K2 & K3).
    set (o1 := collect_loop v (page_num + 1) [] s1) in *.
    assert (A1 : result (_append_tracks_to_csv data (final o1)) = Ok tt)
      by (rewrite append_eq; reflexivity).
    rewrite (bind_ok _ _ _ A1). simpl.
    set (o2 := _append_tracks_to_csv data (final o1)).
    exists data. split; [|exact P1].
    apply run_writes_app with (d1 := []) (d2 := [data]) (s1 := s1); [exact Q|].
    rewrite app_assoc.
    apply run_writes_app with (d1 := [data]) (d2 := []) (s1 := final o2);
      [|apply run_writes_quiet;
        [apply keeps_file_click_next | apply keeps_id_click_next]].
    subst o2. rewrite append_eq. unfold run_writes. simpl.
    rewrite file_events_app, K3, K1, K2, orb_true_r, !app_nil_r.
    apply Z.eqb_eq in E. unfold EXPECTED_TRACKS_PER_PAGE in E.
    repeat split; auto.
    + simpl. destruct (file_exists s1); reflexivity.
    + constructor; [lia|constructor].
  - left.
    apply run_writes_app with (d1 := []) (d2 := []) (s1 := s1); [exact Q|].
    exact (run_writes_quiet s1 (keeps_file_print _) (keeps_id_print _)).
Qed.

(** ** The loop over the pages and the whole run *)

Lemma in_range_nonneg (p n : Z) : In p (Py.range n) -> 0 <= p.
Proof.
  unfold Py.range. rewrite in_map_iff. intros (k & <- & _). lia.
Qed.

(** What [run_writes] says about the events. *)
Lemma run_writes_events (s s' : State) (evs : list Event)
    (datas : list (list Track)) :
  run_writes s s' evs datas ->
  batches evs = datas
  /\ headers evs = match datas with
                   | [] => []
                   | _ :: _ => if file_exists s then [] else [Track_fields]
                   end
  /\ opens evs = List.length datas.
Proof.
  intros (E & _).
  rewrite <- batches_file_events, <- headers_file_events,
    <- opens_file_events, E.
  rewrite batches_writer_events, headers_writer_events, opens_writer_events.
  auto.
Qed.

Lemma pages_loop_spec (l : list Z) :
  forall s : State,
    let o := for_each l get_tracks_page s in
    exists datas,
      run_writes s (final o) (events o) datas
      /\ Forall (fun d => exists p s',
                    In p l
                    /\ batches (events (get_tracks_page p s')) = [d]
                    /\ Forall (fun t => page t = p + 1) d)
                datas.
Proof.
  induction l as [|p l IH]; intros s; simpl.
  - exists []. split; [|constructor].
    exact (run_writes_quiet s (keeps_file_ret tt) (keeps_id_ret tt)).
  - assert (S1 : exists d1,
               run_writes s (final (get_tracks_page p s))
                          (events (get_tracks_page p s)) d1
               /\ Forall (fun d => exists q s',
                            In q (p :: l)
                            /\ batches (events (get_tracks_page q s')) = [d]
                            /\ Forall (fun t => page t = q + 1) d) d1).
    { destruct (page_step p s) as [W | (data & W & P)].
      - exists []. split; [exact W|constructor].
      - exists [data]. split; [exact W|].
        constructor; [|constructor]. exists p, s.
        split; [left; reflexivity|].
        split; [exact (proj1 (run_writes_events W))|exact P]. }
    destruct S1 as (d1 & W1 & P1).
    destruct (result (get_tracks_page p s)) as [[]|e] eqn:R.
    + rewrite (bind_ok _ _ _ R). simpl.
      destruct (IH (final (get_tracks_page p s))) as (d2 & W2 & P2).
      exists (d1 ++ d2). split.
      * eapply run_writes_app; eassumption.
      * apply Forall_app. split; [exact P1|].
        eapply Forall_impl; [|exact P2].
        intros d (q & s' & Hq & Hb & Hd). exists q, s'.
        split; [right; exact Hq|split; assumption].
    + rewrite (bind_raise _ _ _ R). simpl.
      exists d1. split; assumption.
Qed.

Lemma get_tracks_unfold (s : State) :
  get_tracks s =
  (total_pages <- get_total_pages ;;
   if (total_pages =? 0)%Z then ret tt
   else for_each (Py.range total_pages) get_tracks_page)
    (final ((new_count 1 : M unit) s)).
Proof.
  unfold get_tracks.
  rewrite (@bind_ok _ _ (new_count 1) _ s tt eq_refl). simpl.
  symmetry. apply outcome_eta.
Qed.

Lemma get_tracks_spec (s : State) :
  let o := get_tracks s in
  exists datas,
    run_writes (final ((new_count 1 : M unit) s)) (final o) (events o) datas
    /\ Forall (fun d => exists p s',
                  0 <= p
                  /\ batches (events (get_tracks_page p s')) = [d]
                  /\ Forall (fun t => page t = p + 1) d)
              datas.
Proof.
  simpl. unfold get_tracks.
  rewrite (@bind_ok _ _ (new_count 1) _ s tt eq_refl).
  set (s0 := final ((new_count 1 : M unit) s)). simpl.
  pose proof (run_writes_quiet s0 keeps_file_get_total_pages
                keeps_id_get_total_pages) as Q.
  destruct (result (get_total_pages s0)) as [total|e] eqn:R.
  - rewrite (bind_ok _ _ _ R). simpl.
    set (s1 := final (get_total_pages s0)) in *.
    destruct (total =? 0)%Z.
    + exists []. split; [|constructor].
      apply run_writes_app with (d1 := []) (d2 := []) (s1 := s1); [exact Q|].
      exact (run_writes_quiet s1 (keeps_file_ret tt) (keeps_id_ret tt)).
    + destruct (pages_loop_spec (Py.range total) s1) as (datas & W & P).
      exists datas. split.
      * apply run_writes_app with (d1 := []) (d2 := datas) (s1 := s1);
          assumption.
      * eapply Forall_impl; [|exact P].
        intros d (q & s' & Hq & Hb & Hd). exists q, s'.
        split; [exact (in_range_nonneg _ _ Hq)|split; assumption].
  - rewrite (bind_raise _ _ _ R). simpl.
    exists []. split; [exact Q|constructor].
Qed.

Lemma main_spec (b : B) (file : option (list Row)) :
  let o := main b file in
  exists datas,
    run_writes (__init__ b file) (final o) (events o) datas
    /\ Forall (fun d => exists p s',
                  0 <= p
                  /\ batches (events (get_tracks_page p s')) = [d]
                  /\ Forall (fun t => page t = p + 1) d)
              datas.
Proof.
  simpl. unfold main.
  destruct (get_tracks_spec (__init__ b file)) as (datas & W & P).
  change (final ((new_count 1 : M unit) (__init__ b file)))
    with (__init__ b file) in W.
  exists datas. split; [|exact P].
  destruct (result (get_tracks (__init__ b file))) as [[]|e] eqn:R.
  - rewrite (bind_ok _ _ _ R). simpl.
    rewrite <- (app_nil_r datas).
    eapply run_writes_app; [exact W|].
    apply run_writes_quiet; [apply keeps_file_close | apply keeps_id_close].
  - rewrite (bind_raise _ _ _ R). simpl. exact W.
Qed.

(** When every iteration meets a mismatching page, the loop ends normally
    and has left the file, the flag and the cursor as they were. *)
Lemma loop_mismatch (l : list Z) :
  forall s : State,
    every_page_mismatch l s = true ->
    let o := for_each l get_tracks_page s in
    result o = Ok tt
    /\ file_events (events o) = []
    /\ csv_file (final o) = csv_file s
    /\ file_exists (final o) = file_exists s
    /\ discovery_item_id (final o) = discovery_item_id s.
Proof.
  induction l as [|p l IH]; intros s H; simpl in *.
  - auto.
  - apply andb_prop in H. destruct H as [H1 H2].
    destruct (page_mismatch_step p s H1) as (v & R & N & E).
    destruct (keeps_file_visible_tracks_at s) as (F1 & F2 & F3).
    pose proof (keeps_id_visible_tracks_at s) as F4.
    assert (R' : result (get_tracks_page p s) = Ok tt)
      by (rewrite E; reflexivity).
    rewrite (bind_ok _ _ _ R'). simpl.
    destruct (IH _ H2) as (G0 & G1 & G2 & G3 & G4).
    rewrite G0, file_events_app, G1, G2, G3, G4, E. simpl.
    rewrite file_events_app, F3. auto.
Qed.

(** ** Specification statements *)

(** C2, amended.  In every run the file events are those of one
    [_append_tracks_to_csv] call per batch, and only the first call of a run
    that found no file writes the header: the header is written exactly when
    the file did not exist at the start and the run makes at least one
    call.  A run that found a file, empty or not, writes no header; a run
    that makes no call leaves the file as it was. *)
Theorem C2_header_iff_no_file_and_a_write (b : B) (file : option (list Row)) :
  let o := main b file in
  file_events (events o)
  = writer_events (match file with Some _ => true | None => false end)
                  (batches (events o))
  /\ headers (events o)
     = match file with
       | Some _ => []
       | None => if (opens (events o) =? 0)%nat then [] else [Track_fields]
       end
  /\ csv_file (final o)
     = if (opens (events o) =? 0)%nat then file
       else Some (rows_of file ++ headers (events o)
                  ++ map track_row (written (events o))).
Proof.
  simpl. destruct (main_spec b file) as (datas & W & _).
  destruct (run_writes_events W) as (Eb & Eh & Eo).
  destruct W as (E & C & _).
  unfold written. rewrite Eh, Eo, Eb, E, C.
  destruct file as [rows|], datas as [|d ds]; simpl; auto.
Qed.

(** C3.  In every run the ids of the records written, in write order, are
    1, 2, 3, ... without gap or repetition, and the records are the rows the
    run added to the file, in that order. *)
Theorem C3_written_ids_contiguous (b : B) (file : option (list Row)) :
  let o := main b file in
  map id (written (events o))
  = map Z.of_nat (seq 1 (List.length (written (events o))))
  /\ (csv_file (final o) = file
      \/ csv_file (final o)
         = Some (rows_of file ++ headers (events o)
                 ++ map track_row (written (events o)))).
Proof.
  simpl. destruct (main_spec b file) as (datas & W & _).
  destruct (run_writes_events W) as (Eb & Eh & Eo).
  destruct W as (E & C & _ & I & _).
  unfold written. rewrite Eh, Eb, C, I. split.
  - rewrite <- seq_shift, map_map. apply map_ext. intros k.
    change (discovery_item_id (__init__ b file)) with 1. lia.
  - destruct file as [rows|], datas as [|d ds]; simpl; auto.
Qed.

(** C4.  When one of the three sub-element reads of an item raises,
    [_collect_track_info] returns the records of the items before it
    followed by those of the items after it, none for the item itself; it
    prints the error with the page number; the cursor is where it was
    before the item; and the items after it are processed from there. *)
Theorem C4_failed_item_skipped (pre post : list Elem) (item : Elem)
    (page_num : Z) (s : State) (e : exn) :
  let o1 := _collect_track_info pre page_num s in
  let o2 := resolve item (final o1) in
  let o3 := _collect_track_info post page_num (final o2) in
  result o2 = Raise e ->
  _collect_track_info (pre ++ item :: post) page_num s
  = mkOutcome (Ok (tracks_of o1 ++ tracks_of o3)) (final o3)
              (events o1 ++ events o2
               ++ EvPrint (LogTrackError page_num e) :: events o3)
  /\ discovery_item_id (final o2) = discovery_item_id (final o1).
Proof.
  intros o1 o2 o3 R. split; [|apply keeps_id_resolve].
  unfold _collect_track_info in *.
  rewrite collect_loop_app.
  destruct (collect_loop_spec pre page_num [] s) as (new & R1 & _).
  fold o1 in R1. simpl in R1.
  rewrite (bind_ok _ _ _ R1). fold o1. simpl.
  assert (RI : collect_item item page_num (final o1)
               = mkOutcome (Ok None) (final o2)
                   (events o2 ++ [EvPrint (LogTrackError page_num e)])).
  { rewrite collect_item_eq. simpl. fold o2. rewrite R. reflexivity. }
  assert (RI' : result (collect_item item page_num (final o1)) = Ok None)
    by (rewrite RI; reflexivity).
  rewrite (bind_ok _ _ _ RI'), RI. simpl.
  rewrite (collect_loop_acc post page_num new (final o2)). fold o3. simpl.
  replace (tracks_of o1) with new by (unfold tracks_of; rewrite R1; reflexivity).
  rewrite <- app_assoc. reflexivity.
Qed.

(** C5.  When the pagination lookup raises, [get_total_pages] prints the
    error and returns 0; [get_tracks] then returns normally without entering
    the page loop; [main] goes on to [close], whose first action is
    [browser.quit()]; the file is as it was. *)
Theorem C5_failed_lookup_ends_run_quietly (b : B) (file : option (list Row))
    (e : exn) :
  let s := __init__ b file in
  let lk := pagination_lookup s in
  result lk = Raise e ->
  result (get_total_pages s) = Ok 0
  /\ get_tracks s
     = mkOutcome (Ok tt) (final lk)
                 (events lk ++ [EvPrint (LogTotalPagesError e)])
  /\ events (main b file)
     = events lk ++ [EvPrint (LogTotalPagesError e)]
       ++ events (close (final lk))
  /\ (exists rest, events (close (final lk)) = EvQuit :: rest)
  /\ csv_file (final (main b file)) = file.
Proof.
  intros s lk R.
  assert (T : get_total_pages s
              = mkOutcome (Ok 0) (final lk)
                          (events lk ++ [EvPrint (LogTotalPagesError e)])).
  { unfold get_total_pages. rewrite (try_raise _ _ _ R). reflexivity. }
  assert (G : get_tracks s
              = mkOutcome (Ok tt) (final lk)
                          (events lk ++ [EvPrint (LogTotalPagesError e)])).
  { rewrite get_tracks_unfold.
    change (final ((new_count 1 : M unit) s)) with s.
    assert (T' : result (get_total_pages s) = Ok 0) by (rewrite T; reflexivity).
    rewrite (bind_ok _ _ _ T'), T. simpl. rewrite app_nil_r. reflexivity. }
  assert (G' : result (get_tracks s) = Ok tt) by (rewrite G; reflexivity).
  split; [rewrite T; reflexivity|].
  split; [exact G|].
  unfold main. fold s. rewrite (bind_ok _ _ _ G'), G. simpl.
  split; [rewrite <- app_assoc; reflexivity|].
  split.
  - unfold close, bind, call. destruct (driver_quit (browser (final lk)))
      as [[[]|e'] b']; simpl; eauto.
  - destruct (keeps_file_close (final lk)) as (_ & C & _). rewrite C.
    destruct (keeps_file_pagination_lookup s) as (_ & C' & _).
    exact C'.
Qed.

(** C7, amended.  [_append_tracks_to_csv] adds to the file, when it writes a
    header, the row [id, page, title, artist, genre], and for each record of
    the batch the row of its id, its page number, its title, its artist and
    its genre, in this order. *)
Theorem C7_rows_in_field_order (data : list Track) (s : State) :
  csv_file (final (_append_tracks_to_csv data s))
  = Some (rows_of (csv_file s)
          ++ (if file_exists s then []
              else [[CStr "id"; CStr "page"; CStr "title"; CStr "artist";
                     CStr "genre"]])
          ++ map (fun t => [CInt (id t); CInt (page t); CStr (title t);
                            CStr (artist t); CStr (genre t)]) data).
Proof. rewrite append_eq. reflexivity. Qed.

(** C8.  Every [_append_tracks_to_csv] call returns normally and leaves a
    file that is the old rows, then the header if [self.file_exists] was
    false, then the rows of the batch in order.  With an empty batch only
    the header can be added.  The call makes one [open] in append mode,
    followed by the writes. *)
Theorem C8_append_extends_file (data : list Track) (s : State) :
  let o := _append_tracks_to_csv data s in
  result o = Ok tt
  /\ csv_file (final o)
     = Some (rows_of (csv_file s)
             ++ (if file_exists s then [] else [Track_fields])
             ++ map track_row data)
  /\ csv_file (final (_append_tracks_to_csv [] s))
     = Some (rows_of (csv_file s)
             ++ (if file_exists s then [] else [Track_fields]))
  /\ events o
     = EvOpenAppend
         :: (if file_exists s then [] else [EvWriterow Track_fields])
         ++ [EvWriterows data].
Proof.
  simpl. rewrite !append_eq. simpl. rewrite app_nil_r. auto.
Qed.

(** C9.  When [get_total_pages] returns a positive total and every
    iteration meets a page whose count of visible items is not 8, the run
    never opens the file and writes nothing: the file, or its absence, is
    what it was. *)
Theorem C9_all_pages_mismatch_file_untouched (b : B)
    (file : option (list Row)) (total : Z) :
  let s := __init__ b file in
  result (get_total_pages s) = Ok total ->
  0 < total ->
  every_page_mismatch (Py.range total) (final (get_total_pages s)) = true ->
  let o := main b file in
  opens (events o) = 0%nat
  /\ batches (events o) = []
  /\ headers (events o) = []
  /\ csv_file (final o) = file.
Proof.
  intros s R Hpos H o.
  assert (F : file_events (events o) = [] /\ csv_file (final o) = file).
  { subst o. unfold main. fold s.
    destruct (keeps_file_get_total_pages s) as (T1 & T2 & T3).
    destruct (loop_mismatch _ _ H) as (L0 & L1 & L2 & _).
    assert (G : get_tracks s
                = mkOutcome (Ok tt)
                    (final (for_each (Py.range total) get_tracks_page
                                     (final (get_total_pages s))))
                    (events (get_total_pages s)
                     ++ events (for_each (Py.range total) get_tracks_page
                                         (final (get_total_pages s))))).
    { rewrite get_tracks_unfold.
      change (final ((new_count 1 : M unit) s)) with s.
      rewrite (bind_ok _ _ _ R).
      replace (total =? 0)%Z with false by (symmetry; apply Z.eqb_neq; lia).
      rewrite L0. reflexivity. }
    assert (G' : result (get_tracks s) = Ok tt) by (rewrite G; reflexivity).
    rewrite (bind_ok _ _ _ G'). simpl.
    destruct (keeps_file_close (final (get_tracks s))) as (_ & C2 & C3).
    rewrite file_events_app, C3, C2, G. simpl.
    rewrite file_events_app, T3, L1, L2, T2. auto. }
  destruct F as (F & C).
  rewrite <- opens_file_events, <- batches_file_events,
    <- headers_file_events, F. auto.
Qed.

(** ** Further properties of the script *)

Lemma bind_ok_inv (A C : Type) (m : M A) (f : A -> M C) (s : State) (c : C) :
  result (bind m f s) = Ok c ->
  exists a, result (m s) = Ok a /\ result (f a (final (m s))) = Ok c.
Proof.
  unfold bind. destruct (m s) as [[a|e] s1 evs1]; simpl; [|discriminate].
  destruct (f a s1) as [r s2 evs2] eqn:F. simpl. intros ->.
  exists a. rewrite F. auto.
Qed.

Lemma try_never_raises (A : Type) (m : M A) (h : exn -> M A) :
  (forall e s, exists a, result (h e s) = Ok a) ->
  forall s, exists a, result (try_except m h s) = Ok a.
Proof.
  intros H s. unfold try_except.
  destruct (m s) as [[a|e] s1 evs1]; simpl; [eauto|].
  destruct (H e s1) as [a R]. destruct (h e s1) as [r s2 evs2]. simpl in *.
  eauto.
Qed.

(** *** Statements that cause no event of some kind *)

Lemma silent_ret (A : Type) (P : Event -> bool) (a : A) :
  silent P (ret a : M A).
Proof. intros s. reflexivity. Qed.

Lemma silent_raise (A : Type) (P : Event -> bool) (e : exn) :
  silent P (raise e : M A).
Proof. intros s. reflexivity. Qed.

Lemma silent_call (A : Type) (P : Event -> bool) (ev : Event)
    (op : B -> Res A * B) :
  P ev = false -> silent P (call ev op).
Proof.
  intros H s. unfold call. destruct (op (browser s)) as [r b]. simpl.
  rewrite H. reflexivity.
Qed.

Lemma silent_print (P : Event -> bool) (l : LogLine) :
  P (EvPrint l) = false -> silent P (print l).
Proof. intros H s. simpl. rewrite H. reflexivity. Qed.

Lemma silent_of_option (A : Type) (P : Event -> bool) (o : option A)
    (e : exn) :
  silent P (of_option o e : M A).
Proof. destruct o; intros s; reflexivity. Qed.

Lemma silent_next_id (P : Event -> bool) : silent P (next_id : M Z).
Proof. intros s. reflexivity. Qed.

Lemma silent_new_count (P : Event -> bool) (n : Z) :
  silent P (new_count n : M unit).
Proof. intros s. reflexivity. Qed.

Lemma silent_bind (A C : Type) (P : Event -> bool) (m : M A) (f : A -> M C) :
  silent P m -> (forall a, silent P (f a)) -> silent P (bind m f).
Proof.
  intros Hm Hf s. unfold bind. specialize (Hm s).
  destruct (m s) as [[a|e] s1 evs1]; simpl in *; [|exact Hm].
  specialize (Hf a s1). destruct (f a s1) as [r s2 evs2]; simpl in *.
  rewrite filter_app, Hm, Hf. reflexivity.
Qed.

Lemma silent_try (A : Type) (P : Event -> bool) (m : M A) (h : exn -> M A) :
  silent P m -> (forall e, silent P (h e)) -> silent P (try_except m h).
Proof.
  intros Hm Hh s. unfold try_except. specialize (Hm s).
  destruct (m s) as [[a|e] s1 evs1]; simpl in *; [exact Hm|].
  specialize (Hh e s1). destruct (h e s1) as [r s2 evs2]; simpl in *.
  rewrite filter_app, Hm, Hh. reflexivity.
Qed.

Lemma silent_append (P : Event -> bool) (data : list Track) :
  P EvOpenAppend = false ->
  (forall r, P (EvWriterow r) = false) ->
  (forall d, P (EvWriterows d) = false) ->
  silent P (_append_tracks_to_csv data).
Proof.
  intros H1 H2 H3 s. rewrite append_eq. simpl.
  rewrite H1. destruct (file_exists s); simpl; rewrite ?H2, H3; reflexivity.
Qed.

Ltac hush :=
  repeat first
    [ progress intros
    | apply silent_bind | apply silent_try
    | apply silent_ret | apply silent_raise
    | apply silent_of_option | apply silent_next_id
    | apply silent_new_count
    | apply silent_call; reflexivity
    | apply silent_print; reflexivity
    | apply silent_append; [reflexivity | reflexivity | reflexivity]
    | match goal with
      | |- silent _ (if ?c then _ else _) => destruct c
      end ].

Lemma silent_displayed (P : Event -> bool) (items : list Elem) :
  (forall e, P (EvIsDisplayed e) = false) -> silent P (displayed items).
Proof.
  intros H. induction items as [|item rest IH]; simpl.
  - apply silent_ret.
  - apply silent_bind; [apply silent_call; apply H|].
    intros d. apply silent_bind; [exact IH|]. intros l. apply silent_ret.
Qed.

Lemma silent_collect_loop (P : Event -> bool) (items : list Elem)
    (page_num : Z) (acc : list Track) :
  (forall item, silent P (collect_item item page_num)) ->
  silent P (collect_loop items page_num acc).
Proof.
  intros H. revert acc. induction items as [|item rest IH]; intros acc; simpl.
  - apply silent_ret.
  - apply silent_bind; [apply H|]. intros r. apply IH.
Qed.

Lemma silent_for_each (A : Type) (P : Event -> bool) (l : list A)
    (body : A -> M unit) :
  (forall x, silent P (body x)) -> silent P (for_each l body).
Proof.
  intros H. induction l as [|x l IH]; simpl.
  - apply silent_ret.
  - apply silent_bind; [apply H|]. intros _. exact IH.
Qed.

Lemma count_events_app (P : Event -> bool) (l1 l2 : list Event) :
  count_events P (l1 ++ l2) = (count_events P l1 + count_events P l2)%nat.
Proof. unfold count_events. rewrite filter_app. apply length_app. Qed.

Lemma silent_count (A : Type) (P : Event -> bool) (m : M A) (s : State) :
  silent P m -> count_events P (events (m s)) = 0%nat.
Proof. intros H. unfold count_events. rewrite (H s). reflexivity. Qed.

(** *** [str.strip] leaves trimmed text *)

Lemma lstrip_no_leading_space (s : string) :
  starts_with_space (Py.lstrip s) = false.
Proof.
  induction s as [|c s IH]; simpl; [reflexivity|].
  destruct (Py.is_space c) eqn:E; [exact IH|]. simpl. exact E.
Qed.

Lemma rstrip_no_trailing_space (s : string) :
  ends_with_space (Py.rstrip s) = false.
Proof.
  induction s as [|c s IH]; simpl; [reflexivity|].
  destruct (Py.rstrip s) as [|c' r] eqn:R.
  - destruct (Py.is_space c) eqn:E; simpl; [reflexivity|exact E].
  - simpl in *. exact IH.
Qed.

Lemma rstrip_keeps_start (s : string) :
  starts_with_space s = false -> starts_with_space (Py.rstrip s) = false.
Proof.
  destruct s as [|c s]; simpl; [reflexivity|]. intros H.
  destruct (Py.rstrip s); rewrite ?H; simpl; exact H.
Qed.

Lemma strip_trimmed (s : string) : trimmed (Py.strip s) = true.
Proof.
  unfold trimmed, Py.strip.
  rewrite rstrip_no_trailing_space.
  rewrite (rstrip_keeps_start _ (lstrip_no_leading_space s)). reflexivity.
Qed.

Lemma lstrip_fixed (s : string) :
  starts_with_space s = false -> Py.lstrip s = s.
Proof.
  destruct s as [|c s]; simpl; [reflexivity|]. intros ->. reflexivity.
Qed.

Lemma rstrip_fixed (s : string) :
  ends_with_space s = false -> Py.rstrip s = s.
Proof.
  induction s as [|c s IH]; simpl; [reflexivity|].
  destruct s as [|c' s'].
  - simpl. intros ->. reflexivity.
  - intros H. rewrite (IH H). reflexivity.
Qed.

Lemma strip_fixed (s : string) : trimmed s = true -> Py.strip s = s.
Proof.
  unfold trimmed. intros H. apply andb_prop in H. destruct H as [H1 H2].
  apply negb_true_iff in H1. apply negb_true_iff in H2.
  unfold Py.strip. rewrite (lstrip_fixed _ H1). apply rstrip_fixed. exact H2.
Qed.


(** *** One page, part by part *)

Lemma page_full_eq (page_num : Z) (s : State) (v : list Elem) :
  result (visible_tracks_at s) = Ok v ->
  Z.of_nat (List.length v) = EXPECTED_TRACKS_PER_PAGE ->
  let o1 := visible_tracks_at s in
  let o2 := _collect_track_info v (page_num + 1) (final o1) in
  let o3 := _append_tracks_to_csv (tracks_of o2) (final o2) in
  let o4 := click_next (final o3) in
  get_tracks_page page_num s
  = mkOutcome (result o4) (final o4)
              (events o1 ++ events o2 ++ events o3 ++ events o4).
Proof.
  intros R L o1 o2 o3 o4.
  rewrite get_tracks_page_eq, (bind_ok _ _ _ R).
  apply Z.eqb_eq in L. rewrite L. simpl.
  destruct (collect_loop_spec v (page_num + 1) [] (final o1))
    as (data & R2 & _).
  simpl in R2. fold (_collect_track_info v (page_num + 1)) in R2. fold o2 in R2.
  fold o1. rewrite (bind_ok _ _ _ R2). fold o2.
  assert (T : tracks_of o2 = data) by (unfold tracks_of; rewrite R2; reflexivity).
  rewrite <- T.
  assert (R3 : result o3 = Ok tt) by (subst o3; rewrite append_eq; reflexivity).
  rewrite (bind_ok _ _ _ R3). reflexivity.
Qed.

Lemma page_raise_eq (page_num : Z) (s : State) (e : exn) :
  result (visible_tracks_at s) = Raise e ->
  get_tracks_page page_num s
  = mkOutcome (Raise e) (final (visible_tracks_at s))
              (events (visible_tracks_at s)).
Proof.
  intros R. rewrite get_tracks_page_eq, (bind_raise _ _ _ R). reflexivity.
Qed.

Lemma page_mismatch_eq (page_num : Z) (s : State) (v : list Elem) :
  result (visible_tracks_at s) = Ok v ->
  Z.of_nat (List.length v) <> EXPECTED_TRACKS_PER_PAGE ->
  get_tracks_page page_num s
  = mkOutcome (Ok tt) (final (visible_tracks_at s))
      (events (visible_tracks_at s)
       ++ [EvPrint (LogExpectedTracks EXPECTED_TRACKS_PER_PAGE
                      (Z.of_nat (List.length v)) (page_num + 1))]).
Proof.
  intros R N. rewrite get_tracks_page_eq, (bind_ok _ _ _ R).
  apply Z.eqb_neq in N. rewrite N. reflexivity.
Qed.

(** The three cases of an iteration. *)
Lemma page_cases (page_num : Z) (s : State) :
  (exists e, result (visible_tracks_at s) = Raise e)
  \/ (exists v, result (visible_tracks_at s) = Ok v
                /\ Z.of_nat (List.length v) <> EXPECTED_TRACKS_PER_PAGE)
  \/ (exists v, result (visible_tracks_at s) = Ok v
                /\ Z.of_nat (List.length v) = EXPECTED_TRACKS_PER_PAGE).
Proof.
  destruct (result (visible_tracks_at s)) as [v|e]; [|eauto].
  destruct (Z.eq_dec (Z.of_nat (List.length v)) EXPECTED_TRACKS_PER_PAGE);
    eauto.
Qed.

Lemma batches_quiet (A : Type) (m : M A) (s : State) :
  keeps_file m -> batches (events (m s)) = [].
Proof.
  intros K. destruct (K s) as (_ & _ & F).
  rewrite <- batches_file_events, F. reflexivity.
Qed.

Lemma opens_quiet (A : Type) (m : M A) (s : State) :
  keeps_file m -> opens (events (m s)) = 0%nat.
Proof.
  intros K. destruct (K s) as (_ & _ & F).
  rewrite <- opens_file_events, F. reflexivity.
Qed.

Lemma keeps_file_collect (v : list Elem) (page_num : Z) :
  keeps_file (_collect_track_info v page_num).
Proof. apply keeps_file_collect_loop. Qed.

(** The batch of an iteration, if any, is what [_collect_track_info]
    returned for the visible items. *)
Lemma page_batches (page_num : Z) (s : State) :
  batches (events (get_tracks_page page_num s))
  = match result (visible_tracks_at s) with
    | Ok v =>
        if (Z.of_nat (List.length v) =? EXPECTED_TRACKS_PER_PAGE)%Z
        then [tracks_of (_collect_track_info v (page_num + 1)
                           (final (visible_tracks_at s)))]
        else []
    | Raise _ => []
    end.
Proof.
  destruct (page_cases page_num s) as [(e & R) | [(v & R & N) | (v & R & L)]].
  - rewrite (page_raise_eq page_num s R), R. simpl.
    apply batches_quiet, keeps_file_visible_tracks_at.
  - rewrite (page_mismatch_eq page_num s R N), R. simpl.
    apply Z.eqb_neq in N. rewrite N, batches_app.
    rewrite (batches_quiet s keeps_file_visible_tracks_at). reflexivity.
  - rewrite (page_full_eq page_num s R L), R. simpl.
    rewrite (proj2 (Z.eqb_eq _ _) L), !batches_app.
    rewrite (batches_quiet s keeps_file_visible_tracks_at).
    rewrite (batches_quiet _ (keeps_file_collect v (page_num + 1))).
    rewrite (batches_quiet _ keeps_file_click_next), append_eq. simpl.
    destruct (file_exists _); reflexivity.
Qed.

(** *** [_collect_track_info], item by item *)

Lemma collect_loop_cons (item : Elem) (rest : list Elem) (page_num : Z)
    (s : State) :
  let oi := collect_item item page_num s in
  let o := collect_loop rest page_num [] (final oi) in
  collect_loop (item :: rest) page_num [] s
  = mkOutcome (Ok (match result oi with
                   | Ok (Some t) => [t]
                   | _ => []
                   end ++ tracks_of o))
              (final o) (events oi ++ events o).
Proof.
  simpl. destruct (collect_item_ok item page_num s) as [r R].
  rewrite (bind_ok _ _ _ R), R.
  rewrite collect_loop_acc. simpl. destruct r; reflexivity.
Qed.

Lemma collected_app (l1 l2 : list Event) :
  collected (l1 ++ l2) = collected l1 ++ collected l2.
Proof. apply flat_map_app. Qed.

Lemma item_errors_app (l1 l2 : list Event) :
  item_errors (l1 ++ l2) = item_errors l1 ++ item_errors l2.
Proof. apply flat_map_app. Qed.

Lemma printed_app (l1 l2 : list Event) :
  printed (l1 ++ l2) = printed l1 ++ printed l2.
Proof. apply flat_map_app. Qed.

Lemma printed_prints (l : list Event) :
  printed (filter is_print l) = printed l.
Proof.
  induction l as [|ev l IH]; [reflexivity|].
  destruct ev; simpl; try exact IH. f_equal. exact IH.
Qed.

Lemma collected_prints (l : list Event) :
  collected (filter is_print l) = collected l.
Proof.
  induction l as [|ev l IH]; [reflexivity|].
  destruct ev; simpl; try exact IH. rewrite IH. reflexivity.
Qed.

Lemma item_errors_prints (l : list Event) :
  item_errors (filter is_print l) = item_errors l.
Proof.
  induction l as [|ev l IH]; [reflexivity|].
  destruct ev; simpl; try exact IH. rewrite IH. reflexivity.
Qed.

Lemma silent_print_resolve (item : Elem) : silent is_print (resolve item).
Proof. unfold resolve, field, text. hush. Qed.

Lemma silent_print_pagination_lookup : silent is_print pagination_lookup.
Proof. unfold pagination_lookup, text. hush. Qed.

Lemma field_stripped (item : Elem) (name : string) (s : State) (x : string) :
  result (field item name s) = Ok x -> trimmed x = true.
Proof.
  unfold field. intros H.
  apply bind_ok_inv in H. destruct H as (e & _ & H).
  apply bind_ok_inv in H. destruct H as (t & _ & H).
  simpl in H. injection H as <-. apply strip_trimmed.
Qed.

Lemma resolve_trimmed (item : Elem) (s : State) (t a g : string) :
  result (resolve item s) = Ok (t, a, g) ->
  trimmed t = true /\ trimmed a = true /\ trimmed g = true.
Proof.
  unfold resolve. intros H.
  apply bind_ok_inv in H. destruct H as (t' & Ht & H).
  apply bind_ok_inv in H. destruct H as (a' & Ha & H).
  apply bind_ok_inv in H. destruct H as (g' & Hg & H).
  simpl in H. injection H as <- <- <-.
  repeat split; eapply field_stripped; eassumption.
Qed.

Lemma collect_item_trimmed (item : Elem) (page_num : Z) (s : State)
    (t : Track) :
  result (collect_item item page_num s) = Ok (Some t) ->
  trimmed_track t = true.
Proof.
  rewrite collect_item_eq. simpl.
  destruct (result (resolve item s)) as [[[ti a] g]|e] eqn:R; simpl;
    [|discriminate].
  intros H. injection H as <-.
  destruct (resolve_trimmed _ _ R) as (H1 & H2 & H3).
  unfold trimmed_track. simpl. rewrite H1, H2, H3. reflexivity.
Qed.

Lemma collect_loop_trimmed (items : list Elem) (page_num : Z) :
  forall s : State,
    Forall (fun t => trimmed_track t = true)
           (tracks_of (collect_loop items page_num [] s)).
Proof.
  induction items as [|item rest IH]; intros s.
  - constructor.
  - rewrite collect_loop_cons. unfold tracks_of at 1. simpl.
    apply Forall_app. split; [|apply IH].
    destruct (result (collect_item item page_num s)) as [[t|]|e] eqn:R;
      constructor; [|constructor].
    exact (collect_item_trimmed _ _ _ R).
Qed.


(** *** [get_total_pages] *)

(** X1.  [get_total_pages] never raises: it returns the value of the lookup,
    or 0 when the lookup raised, and prints one line exactly in the second
    case.  It leaves the file and the id cursor alone. *)
Theorem get_total_pages_absorbs_errors (s : State) :
  let lk := pagination_lookup s in
  let o := get_total_pages s in
  result o = match result lk with Ok n => Ok n | Raise _ => Ok 0 end
  /\ printed (events o)
     = match result lk with
       | Ok _ => []
       | Raise e => [LogTotalPagesError e]
       end
  /\ csv_file (final o) = csv_file s
  /\ discovery_item_id (final o) = discovery_item_id s.
Proof.
  intros lk o. subst lk o.
  destruct (keeps_file_get_total_pages s) as (_ & C & _).
  pose proof (keeps_id_get_total_pages s) as I.
  assert (P : printed (events (pagination_lookup s)) = []).
  { rewrite <- printed_prints, (silent_print_pagination_lookup s).
    reflexivity. }
  split; [|split; [|split; [exact C|exact I]]].
  - unfold get_total_pages.
    destruct (result (pagination_lookup s)) as [n|e] eqn:R.
    + rewrite (try_ok _ _ _ R). exact R.
    + rewrite (try_raise _ _ _ R). reflexivity.
  - unfold get_total_pages.
    destruct (result (pagination_lookup s)) as [n|e] eqn:R.
    + rewrite (try_ok _ _ _ R). exact P.
    + rewrite (try_raise _ _ _ R). cbn [events].
      rewrite printed_app, P. reflexivity.
Qed.

Lemma index_neg2_last_two (A : Type) (pre : list A) (x y : A) :
  Py.index_neg2 (pre ++ [x; y]) = Some x.
Proof.
  unfold Py.index_neg2. rewrite length_app.
  change (List.length [x; y]) with 2%nat.
  replace (2 <=? List.length pre + 2)%nat with true
    by (symmetry; apply Nat.leb_le; lia).
  replace (List.length pre + 2 - 2)%nat with (List.length pre) by lia.
  rewrite nth_error_app2 by lia. rewrite Nat.sub_diag. reflexivity.
Qed.

Lemma index_neg2_short (A : Type) (l : list A) :
  (List.length l < 2)%nat -> Py.index_neg2 l = None.
Proof.
  intros H. unfold Py.index_neg2.
  replace (2 <=? List.length l)%nat with false
    by (symmetry; apply Nat.leb_gt; exact H).
  reflexivity.
Qed.

(** X2.  When the browser lists the [item-page] elements and the text of
    the second-to-last of them reads as an integer, [get_total_pages]
    returns that integer: it reads the text of that element only and
    prints nothing. *)
Theorem get_total_pages_reads_second_to_last (s : State) (pre : list Elem)
    (e last : Elem) (b1 b2 : B) (t : string) (n : Z) :
  find_elements CLASS_NAME CAROUSEL_PAGE (browser s) = (Ok (pre ++ [e; last]), b1) ->
  elem_text e b1 = (Ok t, b2) ->
  Py.int t = Some n ->
  get_total_pages s
  = mkOutcome (Ok n)
      (mkState b2 (file_exists s) (csv_file s) (discovery_item_id s))
      [EvFindElements CLASS_NAME CAROUSEL_PAGE; EvText e].
Proof.
  intros F T I.
  unfold get_total_pages, pagination_lookup, text, try_except, bind, call.
  rewrite F. simpl. rewrite index_neg2_last_two. simpl.
  rewrite T. simpl. rewrite I. reflexivity.
Qed.

(** X3.  With fewer than two [item-page] elements, [get_total_pages]
    catches the [IndexError], prints it and returns 0 without reading any
    text. *)
Theorem get_total_pages_short_bar (s : State) (els : list Elem) (b1 : B) :
  find_elements CLASS_NAME CAROUSEL_PAGE (browser s) = (Ok els, b1) ->
  (List.length els < 2)%nat ->
  get_total_pages s
  = mkOutcome (Ok 0)
      (mkState b1 (file_exists s) (csv_file s) (discovery_item_id s))
      [EvFindElements CLASS_NAME CAROUSEL_PAGE;
       EvPrint (LogTotalPagesError IndexError)].
Proof.
  intros F L.
  unfold get_total_pages, pagination_lookup, text, try_except, bind, call.
  rewrite F. simpl. rewrite (index_neg2_short _ L). reflexivity.
Qed.

Lemma range_nonpositive (n : Z) : n <= 0 -> Py.range n = [].
Proof.
  intros H. unfold Py.range.
  replace (Z.to_nat n) with 0%nat by lia. reflexivity.
Qed.

(** X4.  When the lookup gives a total of 0 or less, [get_tracks] returns
    after it without visiting a page, [main] goes on to [close], and the
    file is as it was. *)
Theorem nonpositive_total_skips_the_loop (b : B) (file : option (list Row))
    (total : Z) :
  let s := __init__ b file in
  let lk := pagination_lookup s in
  result lk = Ok total ->
  total <= 0 ->
  get_tracks s = mkOutcome (Ok tt) (final lk) (events lk)
  /\ events (main b file) = events lk ++ events (close (final lk))
  /\ csv_file (final (main b file)) = file.
Proof.
  intros s lk R H.
  assert (T : get_total_pages s = lk).
  { unfold get_total_pages. apply (try_ok _ _ _ R). }
  assert (G : get_tracks s = mkOutcome (Ok tt) (final lk) (events lk)).
  { rewrite get_tracks_unfold.
    change (final ((new_count 1 : M unit) s)) with s.
    assert (R' : result (get_total_pages s) = Ok total)
      by (rewrite T; exact R).
    rewrite (bind_ok _ _ _ R'), T.
    destruct (total =? 0)%Z.
    - simpl. rewrite app_nil_r. reflexivity.
    - rewrite (range_nonpositive H). simpl. rewrite app_nil_r. reflexivity. }
  split; [exact G|].
  assert (G' : result (get_tracks s) = Ok tt) by (rewrite G; reflexivity).
  unfold main. fold s. rewrite (bind_ok _ _ _ G'), G. simpl.
  split; [reflexivity|].
  destruct (keeps_file_close (final lk)) as (_ & C & _). rewrite C.
  destruct (keeps_file_pagination_lookup s) as (_ & C' & _). exact C'.
Qed.

(** *** [_collect_track_info] *)

Lemma collect_item_log (item : Elem) (page_num : Z) (s : State) :
  let o := collect_item item page_num s in
  match result o with
  | Ok (Some t) =>
      collected (events o) = [title t] /\ item_errors (events o) = []
      /\ List.length (printed (events o)) = 1%nat
  | Ok None =>
      collected (events o) = [] /\ item_errors (events o) = [page_num]
      /\ List.length (printed (events o)) = 1%nat
  | Raise _ => False
  end.
Proof.
  simpl. rewrite collect_item_eq. simpl.
  pose proof (silent_print_resolve item s) as S.
  assert (C : collected (events (resolve item s)) = [])
    by (rewrite <- collected_prints, S; reflexivity).
  assert (E : item_errors (events (resolve item s)) = [])
    by (rewrite <- item_errors_prints, S; reflexivity).
  assert (P : printed (events (resolve item s)) = [])
    by (rewrite <- printed_prints, S; reflexivity).
  destruct (result (resolve item s)) as [[[t a] g]|e]; simpl;
    rewrite collected_app, item_errors_app, printed_app, C, E, P; auto.
Qed.

Lemma tracks_of_mk (l : list Track) (s : State) (evs : list Event) :
  tracks_of (mkOutcome (Ok l) s evs) = l.
Proof. reflexivity. Qed.

(** X5.  [_collect_track_info] never raises and accounts for every item
    with one printed line: the titles printed as collected are the titles
    of the records returned, in order, and every other item has an error
    line with the page number. *)
Theorem collect_one_line_per_item (items : list Elem) (page_num : Z) :
  forall s : State,
    let o := _collect_track_info items page_num s in
    result o = Ok (tracks_of o)
    /\ collected (events o) = map title (tracks_of o)
    /\ item_errors (events o)
       = repeat page_num (List.length items - List.length (tracks_of o))
    /\ (List.length (tracks_of o) <= List.length items)%nat
    /\ List.length (printed (events o)) = List.length items.
Proof.
  unfold _collect_track_info.
  induction items as [|item rest IH]; intros s.
  - simpl. unfold tracks_of. simpl. auto.
  - cbv zeta. rewrite collect_loop_cons.
    set (oi := collect_item item page_num s).
    set (o := collect_loop rest page_num [] (final oi)).
    destruct (IH (final oi)) as (_ & C & E & L & P).
    fold o in C, E, L, P.
    pose proof (collect_item_log item page_num s) as G.
    cbv zeta in G. fold oi in G.
    rewrite !tracks_of_mk. cbn [result events final].
    rewrite collected_app, item_errors_app, printed_app, !length_app.
    rewrite C, E, P, map_app.
    destruct (result oi) as [[t|]|e]; [| |contradiction];
      destruct G as (G1 & G2 & G3); rewrite G1, G2, G3;
      cbn [List.length map app Nat.add].
    + repeat split; auto. lia.
    + repeat split; auto.
      replace (S (List.length rest) - List.length (tracks_of o))%nat
        with (S (List.length rest - List.length (tracks_of o)))%nat by lia.
      reflexivity.
Qed.

(** X6.  When the three reads of an item succeed, [_collect_track_info]
    returns, between the records of the items before and after it, one
    record with the cursor's value as id, the page number and the three
    texts, which are trimmed; the cursor advances by one and the title is
    printed as collected. *)
Theorem good_item_collected (pre post : list Elem) (item : Elem)
    (page_num : Z) (s : State) (t a g : string) :
  let o1 := _collect_track_info pre page_num s in
  let o2 := resolve item (final o1) in
  let o3 := _collect_track_info post page_num
              (final ((next_id : M Z) (final o2))) in
  result o2 = Ok (t, a, g) ->
  _collect_track_info (pre ++ item :: post) page_num s
  = mkOutcome
      (Ok (tracks_of o1
           ++ mkTrack (discovery_item_id (final o1)) page_num t a g
           :: tracks_of o3))
      (final o3)
      (events o1 ++ events o2
       ++ EvPrint (LogTrackCollected t) :: events o3)
  /\ trimmed t = true /\ trimmed a = true /\ trimmed g = true.
Proof.
  intros o1 o2 o3 R. split; [|exact (resolve_trimmed _ _ R)].
  unfold _collect_track_info in *.
  rewrite collect_loop_app.
  destruct (collect_loop_spec pre page_num [] s) as (new & R1 & _).
  fold o1 in R1. simpl in R1.
  rewrite (bind_ok _ _ _ R1). fold o1. simpl.
  pose proof (keeps_id_resolve item (final o1)) as K. fold o2 in K.
  assert (RI : collect_item item page_num (final o1)
               = mkOutcome
                   (Ok (Some (mkTrack (discovery_item_id (final o1))
                                      page_num t a g)))
                   (final ((next_id : M Z) (final o2)))
                   (events o2 ++ [EvPrint (LogTrackCollected t)])).
  { rewrite collect_item_eq. simpl. fold o2. rewrite R, K. reflexivity. }
  assert (RI' : result (collect_item item page_num (final o1))
                = Ok (Some (mkTrack (discovery_item_id (final o1))
                                    page_num t a g)))
    by (rewrite RI; reflexivity).
  rewrite (bind_ok _ _ _ RI'), RI. simpl.
  rewrite collect_loop_acc. fold o3. simpl.
  replace (tracks_of o1) with new
    by (unfold tracks_of; rewrite R1; reflexivity).
  rewrite <- !app_assoc. reflexivity.
Qed.

(** X7.  In every run, the title, artist and genre of every record written
    are free of leading and trailing whitespace. *)
Theorem written_fields_trimmed (b : B) (file : option (list Row)) :
  Forall (fun t => trimmed_track t = true) (written (events (main b file))).
Proof.
  destruct (main_spec b file) as (datas & W & P).
  destruct (run_writes_events W) as (Eb & _).
  unfold written. simpl in Eb. rewrite Eb.
  apply Forall_concat. eapply Forall_impl; [|exact P].
  intros d (p & s' & _ & Hb & _).
  rewrite page_batches in Hb.
  destruct (result (visible_tracks_at s')) as [v|e]; [|discriminate].
  destruct (Z.of_nat (List.length v) =? EXPECTED_TRACKS_PER_PAGE)%Z;
    [|discriminate].
  injection Hb as <-. apply collect_loop_trimmed.
Qed.


(** *** Clicks, waits and the end of the run *)

Ltac hush_script :=
  unfold get_tracks, get_tracks_page, get_total_pages, pagination_lookup,
    visible_tracks_at, click_next, close, _collect_track_info, text;
  repeat first
    [ progress intros
    | apply silent_append; [reflexivity | reflexivity | reflexivity]
    | apply silent_displayed; [intros; reflexivity]
    | apply silent_for_each
    | apply silent_collect_loop; unfold collect_item, field, text
    | apply silent_bind | apply silent_try
    | apply silent_ret | apply silent_raise
    | apply silent_of_option | apply silent_next_id
    | apply silent_new_count
    | apply silent_call; reflexivity
    | apply silent_print; reflexivity
    | apply silent_append; [reflexivity | reflexivity | reflexivity]
    | apply silent_displayed; [intros; reflexivity]
    | apply silent_for_each
    | apply silent_collect_loop; unfold collect_item, field, text
    | match goal with
      | |- silent _ (if ?c then _ else _) => destruct c
      end ].

Lemma clicks_app (l1 l2 : list Event) :
  clicks (l1 ++ l2) = (clicks l1 + clicks l2)%nat.
Proof. unfold clicks. rewrite filter_app. apply length_app. Qed.

Lemma clicks_silent (A : Type) (m : M A) (s : State) :
  silent is_click m -> clicks (events (m s)) = 0%nat.
Proof. intros H. exact (silent_count s H). Qed.

Lemma lookups_app (l1 l2 : list Event) :
  lookups (l1 ++ l2) = (lookups l1 + lookups l2)%nat.
Proof. unfold lookups. rewrite filter_app. apply length_app. Qed.

Lemma silent_click_visible : silent is_click visible_tracks_at.
Proof. hush_script. Qed.

Lemma silent_click_collect (v : list Elem) (page_num : Z) :
  silent is_click (_collect_track_info v page_num).
Proof. hush_script. Qed.

Lemma silent_click_total : silent is_click get_total_pages.
Proof. hush_script. Qed.

Lemma silent_click_close : silent is_click close.
Proof. hush_script. Qed.

Lemma silent_click_append (data : list Track) :
  silent is_click (_append_tracks_to_csv data).
Proof. hush_script. Qed.

Lemma click_next_counts (s : State) :
  let o := click_next s in
  (clicks (events o) <= 1)%nat
  /\ (result o = Ok tt -> clicks (events o) = 1%nat)
  /\ opens (events o) = 0%nat.
Proof.
  simpl. split; [|split].
  - unfold click_next, bind, call. driver_cases; unfold clicks; simpl; lia.
  - unfold click_next, bind, call. driver_cases; unfold clicks; simpl;
      intros H; try discriminate H; reflexivity.
  - apply opens_quiet, keeps_file_click_next.
Qed.

Lemma page_clicks (page_num : Z) (s : State) :
  let o := get_tracks_page page_num s in
  (clicks (events o) <= opens (events o) <= clicks (events o) + 1)%nat
  /\ (result o = Ok tt -> clicks (events o) = opens (events o)).
Proof.
  simpl.
  pose proof (clicks_silent s silent_click_visible) as C1.
  pose proof (opens_quiet s keeps_file_visible_tracks_at) as O1.
  destruct (page_cases page_num s) as [(e & R) | [(v & R & N) | (v & R & L)]].
  - rewrite (page_raise_eq page_num s R). simpl. rewrite C1, O1.
    split; [lia|reflexivity].
  - rewrite (page_mismatch_eq page_num s R N). simpl.
    rewrite clicks_app, opens_app, C1, O1. unfold clicks, opens. simpl.
    split; [lia|reflexivity].
  - rewrite (page_full_eq page_num s R L). cbn [events result final].
    rewrite !clicks_app, !opens_app, C1, O1.
    rewrite (clicks_silent _ (silent_click_collect v (page_num + 1))).
    rewrite (opens_quiet _ (keeps_file_collect v (page_num + 1))).
    rewrite (clicks_silent _ (silent_click_append _)).
    set (o3 := _append_tracks_to_csv _ _).
    assert (O3 : opens (events o3) = 1%nat).
    { subst o3. rewrite append_eq. cbn [events].
      destruct (file_exists _); reflexivity. }
    rewrite O3.
    destruct (click_next_counts (final o3)) as (K1 & K2 & K3).
    cbv zeta in K1, K2, K3. rewrite K3. split; [lia|].
    intros H. rewrite (K2 H). reflexivity.
Qed.

Lemma loop_clicks (l : list Z) :
  forall s : State,
    let o := for_each l get_tracks_page s in
    (clicks (events o) <= opens (events o) <= clicks (events o) + 1)%nat
    /\ (result o = Ok tt -> clicks (events o) = opens (events o)).
Proof.
  induction l as [|p l IH]; intros s; simpl.
  - split; [unfold clicks, opens; simpl; lia|reflexivity].
  - destruct (page_clicks p s) as (P1 & P2). simpl in P1, P2.
    destruct (result (get_tracks_page p s)) as [[]|e] eqn:R.
    + rewrite (bind_ok _ _ _ R). simpl.
      destruct (IH (final (get_tracks_page p s))) as (I1 & I2).
      simpl in I1, I2. rewrite clicks_app, opens_app.
      specialize (P2 eq_refl). split; [lia|].
      intros H. rewrite (I2 H). lia.
    + rewrite (bind_raise _ _ _ R). simpl. split; [exact P1|discriminate].
Qed.

(** X8.  In every run each click on the next control follows a write of
    the page: the clicks are never more than the times the file was opened
    and at most one fewer, and when [get_tracks] returns normally the two
    numbers are equal.  A page that is skipped for its count is never
    followed by a click. *)
Theorem clicks_follow_writes (b : B) (file : option (list Row)) :
  let evs := events (main b file) in
  (clicks evs <= opens evs <= clicks evs + 1)%nat
  /\ match result (get_tracks (__init__ b file)) with
     | Ok _ => clicks evs = opens evs
     | Raise _ => True
     end.
Proof.
  set (s := __init__ b file).
  assert (G : (clicks (events (get_tracks s)) <= opens (events (get_tracks s))
               <= clicks (events (get_tracks s)) + 1)%nat
              /\ (result (get_tracks s) = Ok tt ->
                  clicks (events (get_tracks s))
                  = opens (events (get_tracks s)))).
  { rewrite get_tracks_unfold.
    change (final ((new_count 1 : M unit) s)) with s.
    pose proof (clicks_silent s silent_click_total) as C1.
    pose proof (opens_quiet s keeps_file_get_total_pages) as O1.
    destruct (result (get_total_pages s)) as [total|e] eqn:R.
    - rewrite (bind_ok _ _ _ R). simpl.
      rewrite clicks_app, opens_app, C1, O1. simpl.
      destruct (total =? 0)%Z.
      + simpl. split; [unfold clicks, opens; simpl; lia|reflexivity].
      + apply loop_clicks.
    - rewrite (bind_raise _ _ _ R). simpl. rewrite C1, O1.
      split; [lia|discriminate]. }
  destruct G as (G1 & G2).
  cbv zeta. unfold main. fold s.
  destruct (result (get_tracks s)) as [[]|e] eqn:R.
  - rewrite (bind_ok _ _ _ R). simpl.
    rewrite clicks_app, opens_app.
    rewrite (clicks_silent _ silent_click_close).
    rewrite (opens_quiet _ keeps_file_close).
    specialize (G2 eq_refl). split; lia.
  - rewrite (bind_raise _ _ _ R). simpl. split; [exact G1|exact I].
Qed.

Lemma silent_quit_get_tracks : silent is_quit get_tracks.
Proof. hush_script. Qed.

(** X9.  [main] calls [browser.quit()] exactly when [get_tracks] returns
    normally; when [get_tracks] raises, [main] raises the same exception
    and stops in the state [get_tracks] left. *)
Theorem quit_iff_get_tracks_returns (b : B) (file : option (list Row)) :
  (In EvQuit (events (main b file))
   <-> result (get_tracks (__init__ b file)) = Ok tt)
  /\ match result (get_tracks (__init__ b file)) with
     | Ok _ => True
     | Raise e =>
         result (main b file) = Raise e
         /\ final (main b file) = final (get_tracks (__init__ b file))
         /\ events (main b file) = events (get_tracks (__init__ b file))
     end.
Proof.
  set (s := __init__ b file). unfold main. fold s.
  destruct (result (get_tracks s)) as [[]|e] eqn:R.
  - rewrite (bind_ok _ _ _ R). simpl. split; [|exact I].
    split; [reflexivity|]. intros _. apply in_or_app. right.
    unfold close, bind, call.
    destruct (driver_quit (browser (final (get_tracks s)))) as [[[]|e'] b'];
      simpl; auto.
  - rewrite (bind_raise _ _ _ R). simpl. split; [|auto].
    split; [|discriminate]. intros H. exfalso.
    assert (F : In EvQuit (filter is_quit (events (get_tracks s))))
      by (apply filter_In; split; [exact H|reflexivity]).
    rewrite (silent_quit_get_tracks s) in F. exact F.
Qed.

Lemma silent_wait_total : silent is_wait get_total_pages.
Proof. hush_script. Qed.

Lemma silent_wait_close : silent is_wait close.
Proof. hush_script. Qed.

Lemma silent_wait_displayed (items : list Elem) :
  silent is_wait (displayed items).
Proof. hush_script. Qed.

Lemma silent_wait_collect (v : list Elem) (page_num : Z) :
  silent is_wait (_collect_track_info v page_num).
Proof. hush_script. Qed.

(** Every iteration waits for the results block once. *)
Lemma page_waits (page_num : Z) (s : State) :
  count_events is_wait (events (get_tracks_page page_num s)) = 1%nat.
Proof.
  unfold get_tracks_page.
  assert (K : forall discover_section,
             silent is_wait
               (discover_items <-
                  call (EvElemFindElements discover_section CLASS_NAME
                          DISCOVER_ITEM)
                       (elem_find_elements discover_section CLASS_NAME
                          DISCOVER_ITEM) ;;
                visible_tracks <- displayed discover_items ;;
                if negb (Z.of_nat (List.length visible_tracks)
                         =? EXPECTED_TRACKS_PER_PAGE)%Z
                then print (LogExpectedTracks EXPECTED_TRACKS_PER_PAGE
                              (Z.of_nat (List.length visible_tracks))
                              (page_num + 1))
                else page_tracks <- _collect_track_info visible_tracks
                                      (page_num + 1) ;;
                     _append_tracks_to_csv page_tracks ;;
                     next_button <- call (EvFindElement XPATH NEXT_BTN)
                                         (find_element XPATH NEXT_BTN) ;;
                     call (EvClick next_button) (elem_click next_button)))
    by hush_script.
  unfold bind at 1. unfold call at 1.
  destruct (until_visible CLASS_NAME DISCOVER_BLOCK (browser s))
    as [[sec|e] b1]; [|reflexivity].
  match goal with
  | |- context [match ?k ?st with mkOutcome _ _ _ => _ end] =>
      pose proof (K sec st) as K'; destruct (k st) as [r s2 evs2]
  end.
  simpl in *. unfold count_events. simpl. rewrite K'. reflexivity.
Qed.

Lemma loop_waits (l : list Z) :
  forall s : State,
    let o := for_each l get_tracks_page s in
    (count_events is_wait (events o) <= List.length l)%nat
    /\ (result o = Ok tt ->
        count_events is_wait (events o) = List.length l).
Proof.
  induction l as [|p l IH]; intros s; simpl.
  - split; [unfold count_events; simpl; lia|reflexivity].
  - pose proof (page_waits p s) as P.
    destruct (result (get_tracks_page p s)) as [[]|e] eqn:R.
    + rewrite (bind_ok _ _ _ R). simpl.
      destruct (IH (final (get_tracks_page p s))) as (I1 & I2).
      simpl in I1, I2. rewrite count_events_app, P. split; [lia|].
      intros H. rewrite (I2 H). reflexivity.
    + rewrite (bind_raise _ _ _ R). simpl. rewrite P.
      split; [lia|discriminate].
Qed.

Lemma range_length (n : Z) : List.length (Py.range n) = Z.to_nat n.
Proof. unfold Py.range. rewrite length_map. apply length_seq. Qed.

Lemma get_total_pages_returns (s : State) :
  exists total, result (get_total_pages s) = Ok total.
Proof.
  unfold get_total_pages. apply try_never_raises.
  intros e s'. exists 0. reflexivity.
Qed.

(** X10.  The page loop is bounded by the total that [get_total_pages]
    returned: a run waits for the results block at most that many times,
    and exactly that many times when [get_tracks] returns normally. *)
Theorem waits_bounded_by_total (b : B) (file : option (list Row)) :
  let s := __init__ b file in
  let n := count_events is_wait (events (main b file)) in
  match result (get_total_pages s) with
  | Ok total =>
      (n <= Z.to_nat total)%nat
      /\ match result (get_tracks s) with
         | Ok _ => n = Z.to_nat total
         | Raise _ => True
         end
  | Raise _ => False
  end.
Proof.
  intros s n. subst n.
  destruct (get_total_pages_returns s) as (total & R). rewrite R.
  pose proof (silent_count s silent_wait_total) as W1.
  assert (G : (count_events is_wait (events (get_tracks s))
               <= Z.to_nat total)%nat
              /\ (result (get_tracks s) = Ok tt ->
                  count_events is_wait (events (get_tracks s))
                  = Z.to_nat total)).
  { rewrite get_tracks_unfold.
    change (final ((new_count 1 : M unit) s)) with s.
    rewrite (bind_ok _ _ _ R). simpl. rewrite count_events_app, W1. simpl.
    destruct (total =? 0)%Z eqn:E.
    - apply Z.eqb_eq in E. subst total. simpl.
      split; [unfold count_events; simpl; lia|reflexivity].
    - rewrite <- range_length. apply loop_waits. }
  destruct G as (G1 & G2).
  unfold main. fold s.
  destruct (result (get_tracks s)) as [[]|e] eqn:RG.
  - rewrite (bind_ok _ _ _ RG). simpl.
    rewrite count_events_app, (silent_count _ silent_wait_close).
    specialize (G2 eq_refl). split; lia.
  - rewrite (bind_raise _ _ _ RG). simpl. split; [exact G1|exact I].
Qed.


(** *** Pages and the order of the rows *)

Lemma page_from (page_num : Z) (s : State) :
  batches (events (get_tracks_page page_num s)) = []
  \/ exists d, batches (events (get_tracks_page page_num s)) = [d]
               /\ Forall (fun t => page t = page_num + 1) d.
Proof.
  destruct (page_step page_num s) as [W | (d & W & P)].
  - left. exact (proj1 (run_writes_events W)).
  - right. exists d. split; [exact (proj1 (run_writes_events W))|exact P].
Qed.

Lemma loop_from_pages (l : list Z) :
  forall s : State,
    from_pages l (batches (events (for_each l get_tracks_page s))).
Proof.
  induction l as [|p l IH]; intros s; simpl.
  - constructor.
  - destruct (result (get_tracks_page p s)) as [[]|e] eqn:R.
    + rewrite (bind_ok _ _ _ R). simpl. rewrite batches_app.
      destruct (page_from p s) as [E | (d & E & P)]; rewrite E; simpl.
      * apply from_pages_skip. apply IH.
      * apply from_pages_take; [exact P|apply IH].
    + rewrite (bind_raise _ _ _ R). simpl.
      destruct (page_from p s) as [E | (d & E & P)]; rewrite E.
      * constructor.
      * apply from_pages_take; [exact P|constructor].
Qed.

Lemma from_pages_forall (Q : Z -> Prop) (l : list Z)
    (datas : list (list Track)) :
  from_pages l datas ->
  Forall Q l ->
  Forall (fun t => Q (page t - 1)) (List.concat datas).
Proof.
  induction 1 as [l | p l datas H IH | p l d datas P H IH]; intros F.
  - constructor.
  - inversion F; subst. auto.
  - inversion F as [|? ? Qp F']; subst. simpl. apply Forall_app. split.
    + eapply Forall_impl; [|exact P]. intros t E. simpl in E.
      replace (page t - 1) with p by lia. exact Qp.
    + auto.
Qed.

Lemma strongly_sorted_app (l1 l2 : list Z) :
  StronglySorted Z.le l1 -> StronglySorted Z.le l2 ->
  (forall x y, In x l1 -> In y l2 -> x <= y) ->
  StronglySorted Z.le (l1 ++ l2).
Proof.
  induction 1 as [|x l1 S1 IH F1]; intros S2 H; simpl; [exact S2|].
  constructor.
  - apply IH; [exact S2|]. intros a c Ha Hc. apply H; [right; exact Ha|exact Hc].
  - apply Forall_app. split; [exact F1|].
    apply Forall_forall. intros y Hy. apply H; [left; reflexivity|exact Hy].
Qed.

Lemma strongly_sorted_constant (c : Z) (l : list Z) :
  Forall (fun x => x = c) l -> StronglySorted Z.le l.
Proof.
  induction 1 as [|x l E F IH]; constructor; [exact IH|].
  eapply Forall_impl; [|exact F]. intros y ->. lia.
Qed.

Lemma from_pages_sorted (l : list Z) (datas : list (list Track)) :
  from_pages l datas ->
  StronglySorted Z.lt l ->
  StronglySorted Z.le (map page (List.concat datas)).
Proof.
  induction 1 as [l | p l datas H IH | p l d datas P H IH]; intros S.
  - constructor.
  - inversion S; subst. auto.
  - inversion S as [|? ? S' F]; subst. simpl. rewrite map_app.
    apply strongly_sorted_app.
    + apply strongly_sorted_constant with (c := p + 1).
      apply Forall_map. exact P.
    + auto.
    + intros x y Hx Hy.
      apply in_map_iff in Hx. destruct Hx as (t & <- & Ht).
      apply in_map_iff in Hy. destruct Hy as (u & <- & Hu).
      rewrite Forall_forall in P. rewrite (P _ Ht).
      pose proof (from_pages_forall (Q := fun q => p < q) H F) as G.
      rewrite Forall_forall in G. specialize (G _ Hu). simpl in G. lia.
Qed.

Lemma range_sorted (n : Z) : StronglySorted Z.lt (Py.range n).
Proof.
  unfold Py.range. generalize (Z.to_nat n) as k. generalize 0%nat as a.
  intros a k. revert a. induction k as [|k IH]; intros a; simpl.
  - constructor.
  - constructor; [apply IH|].
    apply Forall_forall. intros y Hy. apply in_map_iff in Hy.
    destruct Hy as (j & <- & Hj). apply in_seq in Hj. lia.
Qed.

Lemma range_bounds (n : Z) : Forall (fun p => 0 <= p < n) (Py.range n).
Proof.
  apply Forall_forall. intros p Hp. unfold Py.range in Hp.
  apply in_map_iff in Hp. destruct Hp as (j & <- & Hj).
  apply in_seq in Hj. lia.
Qed.

Lemma main_batches (b : B) (file : option (list Row)) (total : Z) :
  let s := __init__ b file in
  result (get_total_pages s) = Ok total ->
  batches (events (main b file))
  = if (total =? 0)%Z then []
    else batches (events (for_each (Py.range total) get_tracks_page
                                   (final (get_total_pages s)))).
Proof.
  intros s R.
  assert (G : batches (events (get_tracks s))
              = if (total =? 0)%Z then []
                else batches (events (for_each (Py.range total)
                                        get_tracks_page
                                        (final (get_total_pages s))))).
  { rewrite get_tracks_unfold.
    change (final ((new_count 1 : M unit) s)) with s.
    rewrite (bind_ok _ _ _ R). cbn [events]. rewrite batches_app.
    rewrite (batches_quiet s keeps_file_get_total_pages).
    destruct (total =? 0)%Z; reflexivity. }
  unfold main. fold s.
  destruct (result (get_tracks s)) as [[]|e] eqn:RG.
  - rewrite (bind_ok _ _ _ RG). cbn [events]. rewrite batches_app.
    rewrite (batches_quiet _ keeps_file_close), app_nil_r. exact G.
  - rewrite (bind_raise _ _ _ RG). exact G.
Qed.

(** X11.  With [total] the value [get_total_pages] returned, the batches of
    a run come from pages 0 to [total - 1] in this order, at most one batch
    per page: every record written has a page number between 1 and
    [total], and the page numbers never decrease along the rows
    written. *)
Theorem written_pages_in_range_and_order (b : B) (file : option (list Row))
    (total : Z) :
  result (get_total_pages (__init__ b file)) = Ok total ->
  from_pages (Py.range total) (batches (events (main b file)))
  /\ Forall (fun t => 1 <= page t <= total) (written (events (main b file)))
  /\ StronglySorted Z.le (map page (written (events (main b file)))).
Proof.
  intros R.
  assert (F : from_pages (Py.range total) (batches (events (main b file)))).
  { rewrite (main_batches b file R).
    destruct (total =? 0)%Z; [constructor|apply loop_from_pages]. }
  split; [exact F|]. split.
  - pose proof (from_pages_forall (Q := fun p => 0 <= p < total) F
                  (range_bounds total)) as G.
    eapply Forall_impl; [|exact G]. simpl. intros t H. lia.
  - exact (from_pages_sorted F (range_sorted total)).
Qed.

(** *** The iterations of the loop *)

Lemma for_each_events (l : list Z) :
  forall s : State,
    events (for_each l get_tracks_page s)
    = flat_map (fun po => events (snd po)) (iterations l s).
Proof.
  induction l as [|p l IH]; intros s; simpl; [reflexivity|].
  destruct (result (get_tracks_page p s)) as [[]|e] eqn:R.
  - rewrite (bind_ok _ _ _ R). cbn [events]. rewrite IH. reflexivity.
  - rewrite (bind_raise _ _ _ R). cbn [events]. simpl.
    rewrite app_nil_r. reflexivity.
Qed.

Lemma batches_flat_map (A : Type) (f : A -> list Event) (l : list A) :
  batches (flat_map f l) = flat_map (fun x => batches (f x)) l.
Proof.
  induction l as [|x l IH]; [reflexivity|].
  simpl. rewrite batches_app, IH. reflexivity.
Qed.

Lemma iterations_indices (l : list Z) :
  forall s : State, exists rest, l = map fst (iterations l s) ++ rest.
Proof.
  induction l as [|p l IH]; intros s; simpl.
  - exists []. reflexivity.
  - destruct (result (get_tracks_page p s)) as [[]|e].
    + destruct (IH (final (get_tracks_page p s))) as (rest & E).
      exists rest. simpl. rewrite <- E. reflexivity.
    + exists l. reflexivity.
Qed.

Lemma page_batch_bounded (page_num : Z) (s : State) :
  Forall (fun data => (List.length data <= 8)%nat
                      /\ Forall (fun t => page t = page_num + 1) data)
         (batches (events (get_tracks_page page_num s))).
Proof.
  destruct (page_step page_num s) as [W | (d & W & P)].
  - rewrite (proj1 (run_writes_events W)). constructor.
  - rewrite (proj1 (run_writes_events W)).
    destruct W as (_ & _ & _ & _ & _ & L).
    constructor; [|constructor]. split; [|exact P].
    inversion L; assumption.
Qed.

Lemma iterations_batches (l : list Z) :
  forall s : State,
    Forall (fun po =>
              Forall (fun data =>
                        (List.length data <= 8)%nat
                        /\ Forall (fun t => page t = fst po + 1) data)
                     (batches (events (snd po))))
           (iterations l s).
Proof.
  induction l as [|p l IH]; intros s; simpl; [constructor|].
  constructor; [apply page_batch_bounded|].
  destruct (result (get_tracks_page p s)); [apply IH|constructor].
Qed.

(** C10.  With [total] the value [get_total_pages] returned, the iterations
    of the page loop have the indices 0, 1, 2, ... of [range(total)] in
    order; the batches given to [writerows] in the run are those of these
    iterations, in order; and every batch of the iteration with index
    [page_num] has at most 8 records, each with page field
    [page_num + 1]. *)
Theorem C10_batch_bounded_and_of_one_page (b : B) (file : option (list Row))
    (total : Z) :
  result (get_total_pages (__init__ b file)) = Ok total ->
  let its := iterations (Py.range total)
               (final (get_total_pages (__init__ b file))) in
  batches (events (main b file))
  = flat_map (fun po => batches (events (snd po))) its
  /\ (exists rest, Py.range total = map fst its ++ rest)
  /\ Forall (fun po =>
               Forall (fun data =>
                         (List.length data <= 8)%nat
                         /\ Forall (fun t => page t = fst po + 1) data)
                      (batches (events (snd po))))
            its.
Proof.
  intros R its. subst its.
  split; [|split; [apply iterations_indices|apply iterations_batches]].
  rewrite (main_batches b file R).
  destruct (total =? 0)%Z eqn:E.
  - apply Z.eqb_eq in E. subst total. reflexivity.
  - rewrite for_each_events. apply batches_flat_map.
Qed.

Lemma opens_one_append (data : list Track) (s : State) :
  opens (events (_append_tracks_to_csv data s)) = 1%nat.
Proof.
  rewrite append_eq. cbn [events]. destruct (file_exists s); reflexivity.
Qed.

(** X12.  An iteration opens the file exactly when the browser showed
    exactly 8 visible items, and then once, however many of the items
    fail. *)
Theorem file_opened_iff_full_page (page_num : Z) (s : State) :
  opens (events (get_tracks_page page_num s))
  = match result (visible_tracks_at s) with
    | Ok v =>
        if (Z.of_nat (List.length v) =? EXPECTED_TRACKS_PER_PAGE)%Z
        then 1%nat else 0%nat
    | Raise _ => 0%nat
    end.
Proof.
  pose proof (opens_quiet s keeps_file_visible_tracks_at) as O1.
  destruct (page_cases page_num s) as [(e & R) | [(v & R & N) | (v & R & L)]].
  - rewrite (page_raise_eq page_num s R), R. exact O1.
  - rewrite (page_mismatch_eq page_num s R N), R. cbn [events].
    apply Z.eqb_neq in N. rewrite N, opens_app, O1. reflexivity.
  - rewrite (page_full_eq page_num s R L), R. cbn [events].
    rewrite (proj2 (Z.eqb_eq _ _) L), !opens_app, O1.
    rewrite (opens_quiet _ (keeps_file_collect v (page_num + 1))).
    rewrite opens_one_append.
    rewrite (opens_quiet _ keeps_file_click_next). reflexivity.
Qed.

(** X13.  After an iteration on a page of exactly 8 visible items the file
    holds the old rows, the header if [self.file_exists] was false, and the
    rows of the records collected, whether or not the click on the next
    control raises afterwards.  When every item fails, this is the old rows
    and at most the header. *)
Theorem full_page_rows_are_in_the_file (page_num : Z) (s : State)
    (v : list Elem) :
  result (visible_tracks_at s) = Ok v ->
  Z.of_nat (List.length v) = EXPECTED_TRACKS_PER_PAGE ->
  csv_file (final (get_tracks_page page_num s))
  = Some (rows_of (csv_file s)
          ++ (if file_exists s then [] else [Track_fields])
          ++ map track_row
               (tracks_of (_collect_track_info v (page_num + 1)
                             (final (visible_tracks_at s))))).
Proof.
  intros R L. rewrite (page_full_eq page_num s R L). cbn [final].
  destruct (keeps_file_click_next
              (final (_append_tracks_to_csv
                        (tracks_of (_collect_track_info v (page_num + 1)
                                      (final (visible_tracks_at s))))
                        (final (_collect_track_info v (page_num + 1)
                                  (final (visible_tracks_at s)))))))
    as (_ & C & _).
  rewrite C, append_eq. cbn [final csv_file].
  destruct (keeps_file_collect v (page_num + 1) (final (visible_tracks_at s)))
    as (F2 & C2 & _).
  destruct (keeps_file_visible_tracks_at s) as (F1 & C1 & _).
  rewrite C2, F2, C1, F1. reflexivity.
Qed.

(** *** The visible items *)

Lemma events_call (A : Type) (ev : Event) (op : B -> Res A * B) (s : State) :
  events (call ev op s) = [ev].
Proof. unfold call. destruct (op (browser s)). reflexivity. Qed.

(** X14.  The list comprehension over [discover_items] asks
    [is_displayed()] of every item once, in order; what it returns are
    items of the list, no more of them than the list has. *)
Theorem displayed_asks_every_item (items : list Elem) :
  forall (s : State) (v : list Elem),
    result (displayed items s) = Ok v ->
    events (displayed items s) = map (fun e => EvIsDisplayed e) items
    /\ incl v items
    /\ (List.length v <= List.length items)%nat.
Proof.
  induction items as [|item rest IH]; intros s v H.
  - simpl in H. injection H as <-. repeat split; auto. apply incl_nil_l.
  - change (displayed (item :: rest))
      with (d <- call (EvIsDisplayed item) (elem_is_displayed item) ;;
            l <- displayed rest ;;
            ret (if d then item :: l else l)) in *.
    apply bind_ok_inv in H. destruct H as (d & Rd & H).
    apply bind_ok_inv in H. destruct H as (l & Rl & H).
    simpl in H. injection H as <-.
    rewrite (bind_ok _ _ _ Rd). cbn [events].
    rewrite (bind_ok _ _ _ Rl). cbn [events].
    destruct (IH _ _ Rl) as (E & I & L).
    rewrite events_call, E, app_nil_r.
    split; [reflexivity|].
    destruct d; split.
    + apply incl_cons; [left; reflexivity|]. apply incl_tl. exact I.
    + simpl. lia.
    + apply incl_tl. exact I.
    + simpl. lia.
Qed.

Lemma silent_print_visible : silent is_print visible_tracks_at.
Proof. hush_script. Qed.

Lemma silent_lookup_visible : silent is_lookup visible_tracks_at.
Proof. hush_script. Qed.

(** X15.  On a page whose count of visible items is not 8, the iteration
    returns normally after printing the one warning with that count and
    the page number: it looks up no sub-element, does not open the file, makes
    no click, and leaves the file and the id cursor as they were. *)
Theorem mismatch_page_only_warns (page_num : Z) (s : State) :
  page_mismatch s = true ->
  let o := get_tracks_page page_num s in
  result o = Ok tt
  /\ (exists v, result (visible_tracks_at s) = Ok v
                /\ Z.of_nat (List.length v) <> 8
                /\ printed (events o)
                   = [LogExpectedTracks 8 (Z.of_nat (List.length v))
                        (page_num + 1)])
  /\ lookups (events o) = 0%nat
  /\ opens (events o) = 0%nat
  /\ clicks (events o) = 0%nat
  /\ csv_file (final o) = csv_file s
  /\ discovery_item_id (final o) = discovery_item_id s.
Proof.
  intros H o. subst o.
  destruct (page_mismatch_step page_num s H) as (v & R & N & E).
  rewrite E. cbn [result events final].
  destruct (keeps_file_visible_tracks_at s) as (_ & C & _).
  pose proof (keeps_id_visible_tracks_at s) as K.
  assert (P : printed (events (visible_tracks_at s)) = [])
    by (rewrite <- printed_prints, (silent_print_visible s); reflexivity).
  pose proof (silent_count s silent_lookup_visible) as LK.
  change (count_events is_lookup (events (visible_tracks_at s)))
    with (lookups (events (visible_tracks_at s))) in LK.
  rewrite printed_app, lookups_app, opens_app, clicks_app, P, LK.
  rewrite (opens_quiet s keeps_file_visible_tracks_at).
  rewrite (clicks_silent s silent_click_visible).
  split; [reflexivity|]. split; [|auto].
  exists v. split; [exact R|]. split; [exact N|reflexivity].
Qed.


(** *** Successive writes and the size of a run *)

(** X16.  Two [_append_tracks_to_csv] calls in a row leave the file that one
    call with the two batches joined leaves, and write the header at most
    once, in the first call. *)
Theorem two_appends_compose (d1 d2 : list Track) (s : State) :
  let o := (_append_tracks_to_csv d1 ;; _append_tracks_to_csv d2) s in
  csv_file (final o) = csv_file (final (_append_tracks_to_csv (d1 ++ d2) s))
  /\ headers (events o) = (if file_exists s then [] else [Track_fields])
  /\ batches (events o) = [d1; d2].
Proof.
  cbv zeta.
  assert (R : result (_append_tracks_to_csv d1 s) = Ok tt)
    by (rewrite append_eq; reflexivity).
  rewrite (bind_ok _ _ _ R), !append_eq. cbn [final events csv_file file_exists
                                               rows_of].
  rewrite headers_app, batches_app.
  destruct (file_exists s); cbn; rewrite map_app, <- ?app_assoc; auto.
Qed.

Lemma from_pages_length (l : list Z) (datas : list (list Track)) :
  from_pages l datas -> (List.length datas <= List.length l)%nat.
Proof. induction 1; simpl; lia. Qed.

Lemma concat_length_bound (k : nat) (ds : list (list Track)) :
  Forall (fun d => (List.length d <= k)%nat) ds ->
  (List.length (List.concat ds) <= k * List.length ds)%nat.
Proof.
  induction 1 as [|d ds H F IH]; simpl; [lia|].
  rewrite length_app. lia.
Qed.

(** X17.  With [total] the value [get_total_pages] returned, a run writes
    at most [8 * total] records, in at most [total] batches. *)
Theorem written_at_most_eight_per_page (b : B) (file : option (list Row))
    (total : Z) :
  result (get_total_pages (__init__ b file)) = Ok total ->
  (List.length (batches (events (main b file))) <= Z.to_nat total)%nat
  /\ (List.length (written (events (main b file))) <= 8 * Z.to_nat total)%nat.
Proof.
  intros R.
  assert (F : from_pages (Py.range total) (batches (events (main b file)))).
  { rewrite (main_batches b file R).
    destruct (total =? 0)%Z; [constructor|apply loop_from_pages]. }
  apply from_pages_length in F. rewrite range_length in F.
  split; [exact F|].
  destruct (main_spec b file) as (datas & W & _).
  destruct (run_writes_events W) as (Eb & _).
  destruct W as (_ & _ & _ & _ & _ & L).
  cbv zeta in Eb. unfold written. rewrite Eb in *.
  pose proof (concat_length_bound L) as K. nia.
Qed.

End Properties.

(** * The carousel: scenarios, witnesses and counterexamples *)

Import Carousel.

Example int_examples :
  Py.int " 12 " = Some 12 /\ Py.int "-3" = Some (-3) /\ Py.int "1_0" = Some 10
  /\ Py.int "next" = None /\ Py.int EmptyString = None /\ Py.int "1__0" = None.
Proof. repeat split; reflexivity. Qed.

(** The separators 28 to 31 are whitespace for [str.strip] but not for
    [int]; the no-break space 160 is whitespace for both. *)
Example int_whitespace :
  Py.int (String (ascii_of_nat 28) "12") = None
  /\ Py.strip (String (ascii_of_nat 28) "12") = "12"
  /\ Py.int (String (ascii_of_nat 160) "12") = Some 12
  /\ Py.int (String (ascii_of_nat 9) "12") = Some 12.
Proof. repeat split; reflexivity. Qed.

Lemma int_body_limit (s : string) :
  Py.int_max_str_digits < Py.count_digits s -> Py.int_body s = None.
Proof.
  intros H. unfold Py.int_body.
  replace (Py.int_max_str_digits <? Py.count_digits s)%Z with true
    by (symmetry; apply Z.ltb_lt; exact H).
  reflexivity.
Qed.

Example strip_example : Py.strip "  a b  " = "a b".
Proof. reflexivity. Qed.

Example range_examples :
  Py.range 3 = [0; 1; 2] /\ Py.range 0 = [] /\ Py.range (-2) = [].
Proof. repeat split; reflexivity. Qed.

Example total_pages_of_the_bar :
  result (get_total_pages (__init__ (two_pages full_page full_page) None))
  = Ok 2.
Proof. reflexivity. Qed.

Example lookup_index_error :
  result (pagination_lookup (__init__ (mkBrowser ["next"] [full_page] 0) None))
  = Raise IndexError.
Proof. reflexivity. Qed.

Example broken_item_on_a_page :
  map id (written (events (main (two_pages (broken :: short_page) full_page)
                                None)))
  = map Z.of_nat (seq 1 15).
Proof. vm_compute. reflexivity. Qed.

Ltac eight l L :=
  do 8 (destruct l as [|? l]; [discriminate L|]);
  destruct l; [clear L|discriminate L].

Lemma well_formed_item (it : Item) :
  well_formed it = true -> exists t a g, it = item t a g.
Proof.
  destruct it as [[|] [t|] [a|] [g|]]; try discriminate.
  intros _. exists t, a, g. reflexivity.
Qed.

Ltac well_formed_items W :=
  simpl in W;
  repeat match type of W with
    | (well_formed ?it && _)%bool = true =>
        let H := fresh "H" in
        apply andb_prop in W; destruct W as [H W];
        apply well_formed_item in H; destruct H as (? & ? & ? & ->)
    end.

(** C6.  A carousel of two pages, each showing exactly 8 well-formed items,
    run with no file on disk: the file ends as the header row followed by
    16 data rows, ids 1 to 16 in order, page number 1 on the first 8 and 2
    on the next 8. *)
Theorem C6_two_full_pages (p1 p2 : list Item) :
  List.length p1 = 8%nat ->
  List.length p2 = 8%nat ->
  forallb well_formed (p1 ++ p2) = true ->
  let tracks := tracks_from 1 1 p1 ++ tracks_from 9 2 p2 in
  csv_file (final (main (two_pages p1 p2) None))
  = Some (Track_fields :: map track_row tracks)
  /\ List.length tracks = 16%nat
  /\ map id tracks = map Z.of_nat (seq 1 16)
  /\ map page tracks = repeat 1 8 ++ repeat 2 8.
Proof.
  intros L1 L2 W. eight p1 L1. eight p2 L2.
  well_formed_items W. clear W.
  lazy -[Py.strip]. repeat split; reflexivity.
Qed.

(** C1: the run on a two-page carousel whose first page shows 7 items.  The
    iteration prints the warning for 7 items on page 1 and ends at
    [continue]: no sub-element is looked up, nothing is written, but no
    click is made either, so the second iteration meets the same 7 items
    and the run ends with the carousel still on its first page. *)
Theorem C1_mismatch_skips_the_click :
  let o := main (two_pages short_page full_page) None in
  result o = Ok tt
  /\ printed (events o)
     = [LogExpectedTracks 8 7 1; LogExpectedTracks 8 7 2; LogBrowserClosed]
  /\ lookups (events o) = 0%nat
  /\ opens (events o) = 0%nat
  /\ clicks (events o) = 0%nat
  /\ current (browser (final o)) = 0%nat
  /\ csv_file (final o) = None.
Proof. vm_compute. repeat split; reflexivity. Qed.

(** C2: a run that finds an existing, empty file and writes 16 records
    writes no header: on this input "a header is written" and "the store was
    empty or nonexistent at the start" are not equivalent. *)
Lemma C2_empty_file_gets_no_header :
  ~ (headers (events (main (two_pages full_page full_page) (Some [])))
     = [Track_fields]
     <-> empty_or_nonexistent (Some []) = true).
Proof.
  intros [_ H]. specialize (H eq_refl). vm_compute in H. discriminate H.
Qed.

(** C7: the header that a run writes to a new file is the row
    [id, page, title, artist, genre], not the row of the names
    [sequence_id, page_number, title, artist, genre]. *)
Lemma C7_header_is_not_the_spec_names :
  headers (events (main (two_pages full_page full_page) None))
  = [[CStr "id"; CStr "page"; CStr "title"; CStr "artist"; CStr "genre"]]
  /\ ~ In spec_field_names
         (headers (events (main (two_pages full_page full_page) None))).
Proof.
  split; [vm_compute; reflexivity|].
  vm_compute. intros [H|[]]. discriminate H.
Qed.

(** Witness of C4: an item without artist between two good items. *)
Lemma C4_witness :
  result (resolve (ItemAt 0 0)
            (final (_collect_track_info [ItemAt 0 1] 1
                      (__init__ (two_pages (broken :: short_page) full_page)
                                None))))
  = Raise NoSuchElementException
  /\ tracks_of (_collect_track_info ([ItemAt 0 1] ++ ItemAt 0 0 :: [ItemAt 0 2])
                  1 (__init__ (two_pages (broken :: short_page) full_page)
                              None))
     = [mkTrack 1 1 "a" "Band" "rock"; mkTrack 2 1 "b" "Band" "rock"].
Proof.
  assert (R : result (resolve (ItemAt 0 0)
                        (final (_collect_track_info [ItemAt 0 1] 1
                                  (__init__ (two_pages (broken :: short_page)
                                                       full_page) None))))
              = Raise NoSuchElementException) by reflexivity.
  split; [exact R|].
  rewrite (proj1 (C4_failed_item_skipped [ItemAt 0 1] [ItemAt 0 2] (ItemAt 0 0)
                    1 (__init__ (two_pages (broken :: short_page) full_page)
                                None) R)).
  reflexivity.
Defined.

(** Witness of C5: a pagination bar whose second-to-last entry is no
    number. *)
Lemma C5_witness :
  result (pagination_lookup
            (__init__ (mkBrowser ["one"; "two"; "next"] [full_page] 0) None))
  = Raise ValueError
  /\ result (get_total_pages
               (__init__ (mkBrowser ["one"; "two"; "next"] [full_page] 0)
                         None))
     = Ok 0
  /\ csv_file (final (main (mkBrowser ["one"; "two"; "next"] [full_page] 0)
                           None))
     = None.
Proof.
  assert (R : result (pagination_lookup
                        (__init__ (mkBrowser ["one"; "two"; "next"]
                                             [full_page] 0) None))
              = Raise ValueError) by reflexivity.
  split; [exact R|].
  destruct (C5_failed_lookup_ends_run_quietly
              (mkBrowser ["one"; "two"; "next"] [full_page] 0) None R)
    as (H1 & _ & _ & _ & H5).
  split; [exact H1|exact H5].
Defined.

(** Witness of C9: two pages of 7 items each, and a file with one row. *)
Lemma C9_witness :
  result (get_total_pages
            (__init__ (two_pages short_page short_page)
                      (Some [[CStr "kept"]])))
  = Ok 2
  /\ 0 < 2
  /\ every_page_mismatch (Py.range 2)
       (final (get_total_pages
                 (__init__ (two_pages short_page short_page)
                           (Some [[CStr "kept"]]))))
     = true
  /\ csv_file (final (main (two_pages short_page short_page)
                           (Some [[CStr "kept"]])))
     = Some [[CStr "kept"]].
Proof.
  split; [reflexivity|]. split; [lia|]. split; [reflexivity|].
  apply (C9_all_pages_mismatch_file_untouched
           (two_pages short_page short_page) (Some [[CStr "kept"]])
           (total := 2)); [reflexivity | lia | reflexivity].
Defined.

(** Witness of C10: a run over two full pages. *)
Lemma C10_witness :
  result (get_total_pages (__init__ (two_pages full_page full_page) None))
  = Ok 2
  /\ batches (events (main (two_pages full_page full_page) None))
     = flat_map (fun po => batches (events (snd po)))
         (iterations (Py.range 2)
            (final (get_total_pages
                      (__init__ (two_pages full_page full_page) None)))).
Proof.
  assert (R : result (get_total_pages
                        (__init__ (two_pages full_page full_page) None))
              = Ok 2) by reflexivity.
  split; [exact R|].
  exact (proj1 (C10_batch_bounded_and_of_one_page
                  (two_pages full_page full_page) None R)).
Defined.

(** Witness of C6: two pages of the same 8 items. *)
Lemma C6_witness :
  List.length full_page = 8%nat
  /\ forallb well_formed (full_page ++ full_page) = true
  /\ csv_file (final (main (two_pages full_page full_page) None))
     = Some (Track_fields
             :: map track_row (tracks_from 1 1 full_page
                               ++ tracks_from 9 2 full_page)).
Proof.
  split; [reflexivity|]. split; [reflexivity|].
  apply (C6_two_full_pages full_page full_page); reflexivity.
Defined.

(** ** Witnesses of the further properties *)

(** X2 on the bar [1, 2, next]. *)
Lemma get_total_pages_reads_second_to_last_witness :
  find_elements CLASS_NAME DiscoverLocators.CAROUSEL_PAGE
    (two_pages full_page full_page)
  = (Ok ([Bar 0] ++ [Bar 1; Bar 2]), two_pages full_page full_page)
  /\ elem_text (Bar 1) (two_pages full_page full_page)
     = (Ok "2", two_pages full_page full_page)
  /\ Py.int "2" = Some 2
  /\ result (get_total_pages (__init__ (two_pages full_page full_page) None))
     = Ok 2.
Proof.
  assert (F : find_elements CLASS_NAME DiscoverLocators.CAROUSEL_PAGE
                (browser (__init__ (two_pages full_page full_page) None))
              = (Ok ([Bar 0] ++ [Bar 1; Bar 2]),
                 two_pages full_page full_page)) by reflexivity.
  assert (T : elem_text (Bar 1) (two_pages full_page full_page)
              = (Ok "2", two_pages full_page full_page)) by reflexivity.
  assert (I : Py.int "2" = Some 2) by reflexivity.
  split; [exact F|]. split; [exact T|]. split; [exact I|].
  rewrite (get_total_pages_reads_second_to_last
             (__init__ (two_pages full_page full_page) None)
             [Bar 0] (Bar 1) (Bar 2) F T I).
  reflexivity.
Defined.

(** X3 on a bar with the single entry [next]. *)
Lemma get_total_pages_short_bar_witness :
  find_elements CLASS_NAME DiscoverLocators.CAROUSEL_PAGE
    (mkBrowser ["next"] [full_page] 0)
  = (Ok [Bar 0], mkBrowser ["next"] [full_page] 0)
  /\ (List.length [Bar 0] < 2)%nat
  /\ result (get_total_pages (__init__ (mkBrowser ["next"] [full_page] 0)
                                       None))
     = Ok 0.
Proof.
  assert (F : find_elements CLASS_NAME DiscoverLocators.CAROUSEL_PAGE
                (browser (__init__ (mkBrowser ["next"] [full_page] 0) None))
              = (Ok [Bar 0], mkBrowser ["next"] [full_page] 0))
    by reflexivity.
  assert (L : (List.length [Bar 0] < 2)%nat) by (simpl; lia).
  split; [exact F|]. split; [exact L|].
  rewrite (get_total_pages_short_bar
             (__init__ (mkBrowser ["next"] [full_page] 0) None) F L).
  reflexivity.
Defined.

(** X4 on a bar whose second-to-last entry reads -3. *)
Lemma nonpositive_total_skips_the_loop_witness :
  result (pagination_lookup
            (__init__ (mkBrowser ["-3"; "next"] [full_page] 0) None))
  = Ok (-3)
  /\ -3 <= 0
  /\ csv_file (final (main (mkBrowser ["-3"; "next"] [full_page] 0) None))
     = None.
Proof.
  assert (R : result (pagination_lookup
                        (__init__ (mkBrowser ["-3"; "next"] [full_page] 0)
                                  None))
              = Ok (-3)) by reflexivity.
  assert (H : -3 <= 0) by lia.
  split; [exact R|]. split; [exact H|].
  exact (proj2 (proj2 (nonpositive_total_skips_the_loop
                         (mkBrowser ["-3"; "next"] [full_page] 0) None R H))).
Defined.

(** X6 on the second item of a full page. *)
Lemma good_item_collected_witness :
  result (resolve (ItemAt 0 1)
            (final (_collect_track_info [ItemAt 0 0] 1
                      (__init__ (two_pages full_page full_page) None))))
  = Ok ("b", "Band", "rock")
  /\ tracks_of (_collect_track_info ([ItemAt 0 0] ++ ItemAt 0 1 :: []) 1
                  (__init__ (two_pages full_page full_page) None))
     = [mkTrack 1 1 "a" "Band" "rock"; mkTrack 2 1 "b" "Band" "rock"].
Proof.
  assert (R : result (resolve (ItemAt 0 1)
                        (final (_collect_track_info [ItemAt 0 0] 1
                                  (__init__ (two_pages full_page full_page)
                                            None))))
              = Ok ("b", "Band", "rock")) by reflexivity.
  split; [exact R|].
  rewrite (proj1 (good_item_collected [ItemAt 0 0] [] (ItemAt 0 1) 1
                    (__init__ (two_pages full_page full_page) None) R)).
  reflexivity.
Defined.

(** X11 on two full pages. *)
Lemma written_pages_in_range_and_order_witness :
  result (get_total_pages (__init__ (two_pages full_page full_page) None))
  = Ok 2
  /\ Forall (fun t => 1 <= page t <= 2)
            (written (events (main (two_pages full_page full_page) None))).
Proof.
  assert (R : result (get_total_pages
                        (__init__ (two_pages full_page full_page) None))
              = Ok 2) by reflexivity.
  split; [exact R|].
  exact (proj1 (proj2 (written_pages_in_range_and_order
                         (two_pages full_page full_page) None R))).
Defined.

(** X13 on a page of 8 items without artist and no file: the file is
    created with the header alone. *)
Lemma full_page_rows_are_in_the_file_witness :
  result (visible_tracks_at (__init__ (two_pages broken_page full_page) None))
  = Ok (map (ItemAt 0) (seq 0 8))
  /\ Z.of_nat (List.length (map (ItemAt 0) (seq 0 8)))
     = EXPECTED_TRACKS_PER_PAGE
  /\ csv_file (final (get_tracks_page 0
                        (__init__ (two_pages broken_page full_page) None)))
     = Some [Track_fields].
Proof.
  assert (R : result (visible_tracks_at
                        (__init__ (two_pages broken_page full_page) None))
              = Ok (map (ItemAt 0) (seq 0 8))) by reflexivity.
  assert (L : Z.of_nat (List.length (map (ItemAt 0) (seq 0 8)))
              = EXPECTED_TRACKS_PER_PAGE) by reflexivity.
  split; [exact R|]. split; [exact L|].
  rewrite (full_page_rows_are_in_the_file 0
             (__init__ (two_pages broken_page full_page) None) R L).
  reflexivity.
Defined.

(** X14 on the items of a page of 7 and a page of 8. *)
Lemma displayed_asks_every_item_witness :
  result (displayed (all_items (two_pages short_page full_page))
            (__init__ (two_pages short_page full_page) None))
  = Ok (map (ItemAt 0) (seq 0 7))
  /\ events (displayed (all_items (two_pages short_page full_page))
               (__init__ (two_pages short_page full_page) None))
     = map (fun e => EvIsDisplayed e)
           (all_items (two_pages short_page full_page)).
Proof.
  assert (R : result (displayed (all_items (two_pages short_page full_page))
                        (__init__ (two_pages short_page full_page) None))
              = Ok (map (ItemAt 0) (seq 0 7))) by reflexivity.
  split; [exact R|].
  exact (proj1 (displayed_asks_every_item _ _ R)).
Defined.

(** X15 on a first page of 7 items. *)
Lemma mismatch_page_only_warns_witness :
  page_mismatch (__init__ (two_pages short_page full_page) None) = true
  /\ clicks (events (get_tracks_page 0
                       (__init__ (two_pages short_page full_page) None)))
     = 0%nat.
Proof.
  assert (H : page_mismatch (__init__ (two_pages short_page full_page) None)
              = true) by reflexivity.
  split; [exact H|].
  destruct (mismatch_page_only_warns 0
              (__init__ (two_pages short_page full_page) None) H)
    as (_ & _ & _ & _ & C & _).
  exact C.
Defined.

(** X17 on two full pages. *)
Lemma written_at_most_eight_per_page_witness :
  result (get_total_pages (__init__ (two_pages full_page full_page) None))
  = Ok 2
  /\ (List.length (written (events (main (two_pages full_page full_page)
                                         None)))
      <= 8 * Z.to_nat 2)%nat.
Proof.
  assert (R : result (get_total_pages
                        (__init__ (two_pages full_page full_page) None))
              = Ok 2) by reflexivity.
  split; [exact R|].
  exact (proj2 (written_at_most_eight_per_page
                  (two_pages full_page full_page) None R)).
Defined.
